(** * Expense tracker: the Express/Mongoose back end and the React client

    A shallow embedding of [server/index.js] (the four HTTP handlers over
    the [Expense] collection) and of the state-changing functions of
    [src/App.tsx], with the properties of the specification proved or
    refuted on them.

    Conventions.
    - A JavaScript number is an IEEE-754 binary64 value: Rocq's primitive
      [float], with the same rounding on [+].
    - A JavaScript string is a [string]: its UTF-8 bytes.  MongoDB compares
      strings byte by byte, which is [String.compare].
    - A [value] is a JSON value: what [express.json()] hands to a handler,
      what [res.json] sends and what [response.json()] gives the client.
      [undefined] is [None] at type [option value]. *)

From Stdlib Require Import Floats ZArith List String Ascii Bool Lia.
From Stdlib Require Import Permutation Sorted.
Import ListNotations.

Local Open Scope string_scope.
Local Open Scope list_scope.

#[local] Set Warnings "-register-all,-inexact-float".

(* ================================================================= *)
(** ** JavaScript values *)

Inductive value : Type :=
| VNull
| VBool (b : bool)
| VNum (x : float)
| VStr (s : string)
| VArr (items : list value)
| VObj (props : list (string * value)).

(** Own properties of an object literal, first binding of a key. *)
Fixpoint assoc {A : Type} (k : string) (props : list (string * A)) : option A :=
  match props with
  | [] => None
  | (k', v) :: rest => if String.eqb k' k then Some v else assoc k rest
  end.

(** [v.k] for the property names the program reads ([amount], [category],
    [date], [description], [total], [_id]): none of them is a property of
    an array, a date or a primitive, so only object literals answer. *)
Definition get (k : string) (v : value) : option value :=
  match v with
  | VObj props => assoc k props
  | _ => None
  end.


(** [!!v]: JavaScript's ToBoolean. *)
Definition truthy (v : option value) : bool :=
  match v with
  | None => false
  | Some VNull => false
  | Some (VBool b) => b
  | Some (VNum x) => negb (PrimFloat.is_nan x || PrimFloat.is_zero x)
  | Some (VStr s) => negb (String.eqb s "")
  | Some _ => true
  end.

(** [typeof v], for the two answers the program tests. *)
Definition typeof_number (v : option value) : bool :=
  match v with Some (VNum _) => true | _ => false end.

Definition typeof_string (v : option value) : bool :=
  match v with Some (VStr _) => true | _ => false end.

(** [list.reduce((sum, x) => sum + x, 0)] on numbers. *)
Definition sum_numbers (l : list float) : float :=
  fold_left PrimFloat.add l 0%float.

(** An integer count as a JavaScript number. *)
Definition num_of_nat (n : nat) : float :=
  PrimFloat.of_uint63 (Uint63.of_Z (Z.of_nat n)).

(* ----------------------------------------------------------------- *)
(** *** [String.prototype.trim] *)

(** WhiteSpace and LineTerminator code points of ECMAScript, in UTF-8:
    one byte (TAB, LF, VT, FF, CR, SP), two bytes (U+00A0), three bytes
    (U+1680, U+2000..U+200A, U+2028, U+2029, U+202F, U+205F, U+3000,
    U+FEFF). *)
Definition byte_is (a : ascii) (n : nat) : bool := Nat.eqb (nat_of_ascii a) n.

Definition ws1 (a : ascii) : bool :=
  let n := nat_of_ascii a in
  (Nat.leb 9 n && Nat.leb n 13) || Nat.eqb n 32.

Definition ws2 (a b : ascii) : bool := byte_is a 194 && byte_is b 160.

Definition ws3 (a b c : ascii) : bool :=
  let n := nat_of_ascii c in
  (byte_is a 225 && byte_is b 154 && byte_is c 128)
  || (byte_is a 226 && byte_is b 128
      && ((Nat.leb 128 n && Nat.leb n 138) || Nat.eqb n 168 || Nat.eqb n 169
          || Nat.eqb n 175))
  || (byte_is a 226 && byte_is b 129 && byte_is c 159)
  || (byte_is a 227 && byte_is b 128 && byte_is c 128)
  || (byte_is a 239 && byte_is b 187 && byte_is c 191).

(** Strip white space from the front of a byte sequence; [fwd = false]
    reads the bytes of each code point back to front, for the far end. *)
Fixpoint strip (fwd : bool) (s : list ascii) : list ascii :=
  match s with
  | [] => []
  | a :: s1 =>
      if ws1 a then strip fwd s1 else
      match s1 with
      | [] => s
      | b :: s2 =>
          if (if fwd then ws2 a b else ws2 b a) then strip fwd s2 else
          match s2 with
          | [] => s
          | c :: s3 =>
              if (if fwd then ws3 a b c else ws3 c b a) then strip fwd s3
              else s
          end
      end
  end.

Definition trim (s : string) : string :=
  string_of_list_ascii
    (rev (strip false (rev (strip true (list_ascii_of_string s))))).

(* ----------------------------------------------------------------- *)
(** *** Order on numbers *)

(** MongoDB's sort order on doubles: NaN below every number, then the
    numeric order. *)
Definition num_leb (x y : float) : bool :=
  PrimFloat.is_nan x || (negb (PrimFloat.is_nan y) && PrimFloat.leb x y).

(** Order on strings used by MongoDB's default collation: bytewise. *)
Definition str_leb (s t : string) : bool := String.leb s t.

(* ================================================================= *)
(** ** Sorting in descending order

    [.sort({ date: -1 })] and [$sort: { total: -1 }] are modelled by one
    insertion sort that keeps elements with equal keys in their input
    order. *)

Section SortDesc.
Context {A : Type} (ge : A -> A -> bool).

Fixpoint insert_desc (x : A) (l : list A) : list A :=
  match l with
  | [] => [x]
  | y :: l' => if ge y x then y :: insert_desc x l' else x :: y :: l'
  end.

Definition sort_desc (l : list A) : list A :=
  fold_left (fun acc x => insert_desc x acc) l [].

Definition desc (a b : A) : Prop := ge a b = true.
End SortDesc.

(* ================================================================= *)
(** ** The back end: [server/index.js]

    The store is the list of the documents of the collection, and it is
    reachable: a handler answers 500 only when Mongoose rejects what it
    is given, [save] the document or [find] the filter.  What Mongoose
    and MongoDB do with a filter, a cast, a validator or a pipeline
    stage follows their documentation; what the [$sum] accumulator of
    the store gives for a list of amounts is left abstract. *)

Module Server.

(** A stored document of the [Expense] model.  [description] is [None]
    when the stored value is [null]. *)
Record ExpenseDoc : Type := {
  _id : string;
  amount : float;
  category : string;
  date : string;
  description : option string;
  createdAt : Z
}.

(** The collection, in insertion order. *)
Definition Store : Type := list ExpenseDoc.

Record Response : Type := { status : nat; body : value }.

Definition message (m : string) : value := VObj [("message", VStr m)].

(** What the driver supplies to one request: the fresh ObjectId and the
    clock ([Date.now], in milliseconds). *)
Record Env : Type := { oid : string; now : Z }.

(** A parameter of [req.query], as the query parser gives it for the
    pairs [name=value] of the query string: the value when the name is
    given once, the list of the values when it is given several times
    (or written [name[]]).  A parameter written with another bracketed
    name, which the parser turns into an object, is outside this type. *)
Inductive param : Type :=
| PStr (s : string)
| PArr (items : list string).

(** [req.query]: what the parsed object holds under each of the names
    that the handlers read, [None] for a name that the query string does
    not give. *)
Record QueryString : Type := {
  q_category : option param;
  q_date : option param;
  q_start : option param;
  q_end : option param
}.

(** [!!p] on a parameter or [undefined]: an array is truthy. *)
Definition truthy_param (p : option param) : bool :=
  match p with
  | None => false
  | Some (PStr s) => negb (String.eqb s "")
  | Some (PArr _) => true
  end.

(** The value that a parameter holds once [if (p)] has passed. *)
Definition param_of (p : option param) : param :=
  match p with Some v => v | None => PStr "" end.

(* ----------------------------------------------------------------- *)
(** *** Queries: [Expense.find] *)

(** The filter object that a handler hands to [find]. *)
Inductive criterion : Type :=
| Is (p : param)                     (* { path: p } *)
| Range (gte lte : param).           (* { path: { $gte, $lte } } *)

Definition Filter : Type := list (string * criterion).

(** The filter once Mongoose has cast it to the String type of its
    path. *)
Inductive cond : Type :=
| Equals (s : string)                (* { path: s } *)
| OneOf (items : list string)        (* { path: { $in: items } } *)
| Between (gte lte : string).        (* { path: { $gte, $lte } } *)

Definition Query : Type := list (string * cond).

(** The cast of a filter on a String path: a string stays, an array in
    the place of a value becomes [$in], and an array under [$gte] or
    [$lte] is refused with a CastError. *)
Definition cast_criterion (c : criterion) : option cond :=
  match c with
  | Is (PStr s) => Some (Equals s)
  | Is (PArr items) => Some (OneOf items)
  | Range (PStr gte) (PStr lte) => Some (Between gte lte)
  | Range _ _ => None
  end.

Fixpoint cast_filter (f : Filter) : option Query :=
  match f with
  | [] => Some []
  | (path, c) :: rest =>
      match cast_criterion c, cast_filter rest with
      | Some c', Some q => Some ((path, c') :: q)
      | _, _ => None
      end
  end.

Definition path_value (path : string) (d : ExpenseDoc) : option string :=
  if String.eqb path "category" then Some (category d)
  else if String.eqb path "date" then Some (date d)
  else None.

Definition holds (c : cond) (v : string) : bool :=
  match c with
  | Equals s => String.eqb v s
  | OneOf items => existsb (String.eqb v) items
  | Between lo hi => str_leb lo v && str_leb v hi
  end.

Definition matches (q : Query) (d : ExpenseDoc) : bool :=
  forallb (fun '(path, c) =>
             match path_value path d with
             | Some v => holds c v
             | None => false
             end) q.

(** [Expense.find(f)]: the documents found, or [None] when the cast of
    the filter fails and the promise rejects. *)
Definition find (f : Filter) (db : Store) : option (list ExpenseDoc) :=
  match cast_filter f with
  | Some q => Some (filter (matches q) db)
  | None => None
  end.

(** For the statements: the records a parameter of the query lets
    through: all of them when it is absent or the empty string, those
    equal to it when it is another string, those equal to one of its
    values when it is a list. *)
Definition selects (p : option param) (v : string) : bool :=
  match p with
  | None => true
  | Some (PStr s) => if String.eqb s "" then true else String.eqb v s
  | Some (PArr items) => existsb (String.eqb v) items
  end.


(** [.sort({ date: -1 })] *)
Definition date_ge (a b : ExpenseDoc) : bool := str_leb (date b) (date a).

Definition sort_date_desc (l : list ExpenseDoc) : list ExpenseDoc :=
  sort_desc date_ge l.

(* ----------------------------------------------------------------- *)
(** *** The aggregation pipeline of [/api/expenses/by-category] *)

(** One output document of the [$group] stage: its [_id] (the category),
    [total] and [count]. *)
Record Group : Type := {
  group_id : string;
  group_total : float;
  group_count : nat
}.

(** A group while the [$group] stage runs: its key, the amounts that
    went to its [$sum: '$amount'] accumulator, in document order, and
    its count so far ([$sum: 1]). *)
Record Bucket : Type := {
  bucket_id : string;
  bucket_amounts : list float;
  bucket_count : nat
}.

(** The first document of a category opens its group, a later one
    joins it. *)
Fixpoint group_add (d : ExpenseDoc) (bs : list Bucket) : list Bucket :=
  match bs with
  | [] => [ {| bucket_id := category d;
               bucket_amounts := [amount d];
               bucket_count := 1 |} ]
  | b :: bs' =>
      if String.eqb (bucket_id b) (category d)
      then {| bucket_id := bucket_id b;
              bucket_amounts := bucket_amounts b ++ [amount d];
              bucket_count := S (bucket_count b) |} :: bs'
      else b :: group_add d bs'
  end.

Definition buckets (db : Store) : list Bucket :=
  fold_left (fun bs d => group_add d bs) db [].

(** [$group]: [store_sum] is what the [$sum] accumulator of the store
    gives for the amounts of a group. *)
Definition group_by_category (store_sum : list float -> float) (db : Store)
  : list Group :=
  map (fun b => {| group_id := bucket_id b;
                   group_total := store_sum (bucket_amounts b);
                   group_count := bucket_count b |})
      (buckets db).

(** [$sort: { total: -1 }] *)
Definition total_ge (a b : Group) : bool :=
  num_leb (group_total b) (group_total a).

Definition sort_total_desc (gs : list Group) : list Group :=
  sort_desc total_ge gs.


Definition group_json (g : Group) : value :=
  VObj [("_id", VStr (group_id g));
        ("total", VNum (group_total g));
        ("count", VNum (num_of_nat (group_count g)))].

(* ----------------------------------------------------------------- *)
(** *** [expenseSchema]: casting and validation on [save] *)

Inductive casted (A : Type) : Type :=
| Casted (a : A)
| Nullish
| CastError.
Arguments Casted {A} a.
Arguments Nullish {A}.
Arguments CastError {A}.

(** [required: true] on a Number path: a number. *)
Definition requiredNumber (c : casted float) : option float :=
  match c with Casted x => Some x | _ => None end.

(** [required: true] on a String path: a string of non-zero length. *)
Definition requiredString (c : casted string) : option string :=
  match c with
  | Casted s => if String.eqb s "" then None else Some s
  | _ => None
  end.

Section Handlers.

(** Three conversions of the JavaScript runtime, left abstract:
      [Number(s)] on a string, [x.toString()] on a number and
      [new Date(ms).toISOString()]. *)
Variable js_Number : string -> float.
Variable js_String : float -> string.
Variable toISOString : Z -> string.

(** What the [$sum] accumulator of the store gives for the amounts of a
    group, taken in document order: left abstract too. *)
Variable store_sum : list float -> float.

(** The document as [res.json] sends it. *)
Definition doc_json (d : ExpenseDoc) : value :=
  VObj [("amount", VNum (amount d));
        ("category", VStr (category d));
        ("date", VStr (date d));
        ("description",
           match description d with Some s => VStr s | None => VNull end);
        ("_id", VStr (_id d));
        ("createdAt", VStr (toISOString (createdAt d)));
        ("__v", VNum 0%float)].

(** Mongoose's cast for [type: Number], on the values a JSON body holds:
    an object that has an [_id] stands for it; then a number stays, a
    string goes through [Number] (the empty one is [null]), a boolean is
    1 or 0; NaN, arrays and objects are refused. *)
Definition castNumber (v : option value) : casted float :=
  let val := match v with
             | Some (VObj props) =>
                 match assoc "_id" props with
                 | Some id => Some id
                 | None => v
                 end
             | _ => v
             end in
  match val with
  | None | Some VNull => Nullish
  | Some (VStr s) =>
      if String.eqb s "" then Nullish
      else if PrimFloat.is_nan (js_Number s) then CastError
           else Casted (js_Number s)
  | Some (VBool b) => Casted (if b then 1%float else 0%float)
  | Some (VNum x) => if PrimFloat.is_nan x then CastError else Casted x
  | Some (VArr _) | Some (VObj _) => CastError
  end.

(** Mongoose's cast for [type: String]: a string stays, a number or a
    boolean goes through [toString], an object stands for the string in
    its [_id] if it has one; other objects and arrays are refused. *)
Definition castString (v : option value) : casted string :=
  match v with
  | None | Some VNull => Nullish
  | Some (VStr s) => Casted s
  | Some (VNum x) => Casted (js_String x)
  | Some (VBool b) => Casted (if b then "true" else "false")
  | Some (VObj props) =>
      match assoc "_id" props with
      | Some (VStr id) => if String.eqb id "" then CastError else Casted id
      | _ => CastError
      end
  | Some (VArr _) => CastError
  end.

(** [new Expense({ amount, category, date, description }).save()]:
    the stored document, or [None] when validation fails and [save]
    rejects.  An [undefined] description takes the default [''], a
    [null] one stays [null]; [createdAt] takes [Date.now]. *)
Definition save (env : Env) (amount category date description : option value)
  : option ExpenseDoc :=
  match requiredNumber (castNumber amount),
        requiredString (castString category),
        requiredString (castString date),
        castString description with
  | Some a, Some c, Some d, Casted s =>
      Some {| _id := oid env; amount := a; category := c; date := d;
              description := Some s; createdAt := now env |}
  | Some a, Some c, Some d, Nullish =>
      Some {| _id := oid env; amount := a; category := c; date := d;
              description := match description with
                             | None => Some ""
                             | Some _ => None
                             end;
              createdAt := now env |}
  | _, _, _, _ => None
  end.

(* --------------------------------------------------------------- *)
(** *** The four handlers *)

(** [app.get('/api/expenses')] *)
Definition get_expenses (q : QueryString) (db : Store) : Response :=
  let category := q_category q in
  let date := q_date q in
  let query : Filter := [] in
  let query := if truthy_param category
               then query ++ [("category", Is (param_of category))]
               else query in
  let query := if truthy_param date
               then query ++ [("date", Is (param_of date))]
               else query in
  match find query db with
  | Some found =>
      let expenses := sort_date_desc found in
      {| status := 200; body := VArr (map doc_json expenses) |}
  | None => {| status := 500; body := message "Server error" |}
  end.

(** [app.post('/api/expenses')] *)
Definition post_expenses (env : Env) (req_body : value) (db : Store)
  : Store * Response :=
  let amount := get "amount" req_body in
  let category := get "category" req_body in
  let date := get "date" req_body in
  let description := get "description" req_body in
  if negb (truthy amount) || negb (truthy category) || negb (truthy date)
  then (db, {| status := 400;
               body := message "Please provide amount, category, and date" |})
  else
    match save env amount category date description with
    | Some savedExpense =>
        (db ++ [savedExpense],
         {| status := 201; body := doc_json savedExpense |})
    | None => (db, {| status := 500; body := message "Server error" |})
    end.

(** [app.get('/api/expenses/total')] *)
Definition get_total (q : QueryString) (db : Store) : Response :=
  let start := q_start q in
  let end_ := q_end q in
  if negb (truthy_param start) || negb (truthy_param end_)
  then {| status := 400;
          body := message "Please provide start and end dates" |}
  else
    match find [("date", Range (param_of start) (param_of end_))] db with
    | Some expenses =>
        let total :=
          fold_left (fun sum expense => PrimFloat.add sum (amount expense))
                    expenses 0%float in
        {| status := 200; body := VObj [("total", VNum total)] |}
    | None => {| status := 500; body := message "Server error" |}
    end.

(** [app.get('/api/expenses/by-category')] *)
Definition get_by_category (db : Store) : Response :=
  let result := sort_total_desc (group_by_category store_sum db) in
  {| status := 200; body := VArr (map group_json result) |}.

End Handlers.

End Server.

(* ================================================================= *)
(** ** The client: [src/App.tsx] *)

Module Client.

(** The [useState] cells of [App]: the two lists, the flags, the total,
    the fields of the add form and of the filter form.  [error] is [None]
    for [null]. *)
Record State : Type := {
  expenses : list value;
  filteredExpenses : list value;
  loading : bool;
  error : option string;
  totalAmount : float;
  amount : string;
  category : string;
  date : string;
  description : string;
  filterCategory : string;
  filterDate : string;
  filterStartDate : string;
  filterEndDate : string;
  showAddModal : bool;
  showFilterModal : bool
}.

(** A state change, and one after the other. *)
Definition Update : Type := State -> State.

Definition seq (u1 u2 : Update) : Update := fun st => u2 (u1 st).
Infix ";;" := seq (at level 61, left associativity).

(** The setters the modelled functions call. *)
Definition setExpenses (v : list value) : Update := fun st =>
  {| expenses := v; filteredExpenses := filteredExpenses st;
     loading := loading st; error := error st;
     totalAmount := totalAmount st; amount := amount st;
     category := category st; date := date st;
     description := description st; filterCategory := filterCategory st;
     filterDate := filterDate st; filterStartDate := filterStartDate st;
     filterEndDate := filterEndDate st; showAddModal := showAddModal st;
     showFilterModal := showFilterModal st |}.

Definition setFilteredExpenses (v : list value) : Update := fun st =>
  {| expenses := expenses st; filteredExpenses := v;
     loading := loading st; error := error st;
     totalAmount := totalAmount st; amount := amount st;
     category := category st; date := date st;
     description := description st; filterCategory := filterCategory st;
     filterDate := filterDate st; filterStartDate := filterStartDate st;
     filterEndDate := filterEndDate st; showAddModal := showAddModal st;
     showFilterModal := showFilterModal st |}.

Definition setLoading (v : bool) : Update := fun st =>
  {| expenses := expenses st; filteredExpenses := filteredExpenses st;
     loading := v; error := error st; totalAmount := totalAmount st;
     amount := amount st; category := category st; date := date st;
     description := description st; filterCategory := filterCategory st;
     filterDate := filterDate st; filterStartDate := filterStartDate st;
     filterEndDate := filterEndDate st; showAddModal := showAddModal st;
     showFilterModal := showFilterModal st |}.

Definition setError (v : option string) : Update := fun st =>
  {| expenses := expenses st; filteredExpenses := filteredExpenses st;
     loading := loading st; error := v; totalAmount := totalAmount st;
     amount := amount st; category := category st; date := date st;
     description := description st; filterCategory := filterCategory st;
     filterDate := filterDate st; filterStartDate := filterStartDate st;
     filterEndDate := filterEndDate st; showAddModal := showAddModal st;
     showFilterModal := showFilterModal st |}.

Definition setTotalAmount (v : float) : Update := fun st =>
  {| expenses := expenses st; filteredExpenses := filteredExpenses st;
     loading := loading st; error := error st; totalAmount := v;
     amount := amount st; category := category st; date := date st;
     description := description st; filterCategory := filterCategory st;
     filterDate := filterDate st; filterStartDate := filterStartDate st;
     filterEndDate := filterEndDate st; showAddModal := showAddModal st;
     showFilterModal := showFilterModal st |}.

Definition setFilterCategory (v : string) : Update := fun st =>
  {| expenses := expenses st; filteredExpenses := filteredExpenses st;
     loading := loading st; error := error st;
     totalAmount := totalAmount st; amount := amount st;
     category := category st; date := date st;
     description := description st; filterCategory := v;
     filterDate := filterDate st; filterStartDate := filterStartDate st;
     filterEndDate := filterEndDate st; showAddModal := showAddModal st;
     showFilterModal := showFilterModal st |}.

Definition setFilterDate (v : string) : Update := fun st =>
  {| expenses := expenses st; filteredExpenses := filteredExpenses st;
     loading := loading st; error := error st;
     totalAmount := totalAmount st; amount := amount st;
     category := category st; date := date st;
     description := description st; filterCategory := filterCategory st;
     filterDate := v; filterStartDate := filterStartDate st;
     filterEndDate := filterEndDate st; showAddModal := showAddModal st;
     showFilterModal := showFilterModal st |}.

Definition setFilterStartDate (v : string) : Update := fun st =>
  {| expenses := expenses st; filteredExpenses := filteredExpenses st;
     loading := loading st; error := error st;
     totalAmount := totalAmount st; amount := amount st;
     category := category st; date := date st;
     description := description st; filterCategory := filterCategory st;
     filterDate := filterDate st; filterStartDate := v;
     filterEndDate := filterEndDate st; showAddModal := showAddModal st;
     showFilterModal := showFilterModal st |}.

Definition setFilterEndDate (v : string) : Update := fun st =>
  {| expenses := expenses st; filteredExpenses := filteredExpenses st;
     loading := loading st; error := error st;
     totalAmount := totalAmount st; amount := amount st;
     category := category st; date := date st;
     description := description st; filterCategory := filterCategory st;
     filterDate := filterDate st; filterStartDate := filterStartDate st;
     filterEndDate := v; showAddModal := showAddModal st;
     showFilterModal := showFilterModal st |}.

Definition setShowFilterModal (v : bool) : Update := fun st =>
  {| expenses := expenses st; filteredExpenses := filteredExpenses st;
     loading := loading st; error := error st;
     totalAmount := totalAmount st; amount := amount st;
     category := category st; date := date st;
     description := description st; filterCategory := filterCategory st;
     filterDate := filterDate st; filterStartDate := filterStartDate st;
     filterEndDate := filterEndDate st; showAddModal := showAddModal st;
     showFilterModal := v |}.

(* ----------------------------------------------------------------- *)
(** *** The network *)

(** A request of the client: the path after [http://localhost:5000] and
    the pairs appended to its [URLSearchParams]. *)
Record Request : Type := { path : string; params : list (string * string) }.

(** What [fetch] and [response.json()] can give: a rejected promise, or a
    response with its status and its body ([None] when the body is not
    JSON). *)
Inductive FetchResult : Type :=
| NetworkError
| HttpResponse (status : nat) (json : option value).

Definition Network : Type := Request -> FetchResult.

(** [response.ok] *)
Definition ok (status : nat) : bool := Nat.leb 200 status && Nat.leb status 299.

(** [apiRequest]: the parsed body, or [None] when it throws. *)
Definition apiRequest (r : FetchResult) : option value :=
  match r with
  | NetworkError => None
  | HttpResponse status json => if ok status then json else None
  end.

(** [!s] on a text field of the form. *)
Definition empty (s : string) : bool := String.eqb s "".

(* ----------------------------------------------------------------- *)
(** *** [isValidExpense] and [calculateTotal] *)

Definition isValidExpense (expense : value) : bool :=
  match expense with
  | VObj _ | VArr _ =>
      let e := expense in
      match get "amount" e with
      | Some (VNum a) => negb (PrimFloat.is_nan a) && PrimFloat.ltb 0%float a
      | _ => false
      end
      && match get "category" e with
         | Some (VStr c) => negb (String.eqb (trim c) "")
         | _ => false
         end
      && match get "date" e with
         | Some (VStr d) => negb (String.eqb (trim d) "")
         | _ => false
         end
      && match get "description" e with
         | None | Some (VStr _) => true
         | Some _ => false
         end
  | _ => false                 (* !expense || typeof expense !== 'object' *)
  end.

(** [expense.amount] at type [Expense], where it is a number. *)
Definition amount_of (expense : value) : float :=
  match get "amount" expense with
  | Some (VNum a) => a
  | _ => PrimFloat.nan
  end.

Definition calculateTotal (expenseList : list value) : Update :=
  let total :=
    fold_left (fun sum expense => PrimFloat.add sum (amount_of expense))
              expenseList 0%float in
  setTotalAmount total.

(* ----------------------------------------------------------------- *)
(** *** The operations

    Each takes the state its closure captured ([cl]) where it reads a
    cell, and gives the sequence of setter calls it makes. *)

Definition fetchExpenses (net : Network) : Update :=
  setLoading true ;; setError None ;;
  match apiRequest (net {| path := "/api/expenses"; params := [] |}) with
  | Some (VArr data) =>
      let validExpenses := filter isValidExpense data in
      setExpenses validExpenses ;;
      setFilteredExpenses validExpenses ;;
      calculateTotal validExpenses
  | _ =>
      setError (Some "Error fetching expenses. Please try again later.") ;;
      setExpenses [] ;; setFilteredExpenses [] ;; setTotalAmount 0%float
  end ;;
  setLoading false.

Definition filterParams (cl : State) : list (string * string) :=
  let params := [] in
  let params := if negb (empty (filterCategory cl))
                then params ++ [("category", filterCategory cl)] else params in
  let params := if negb (empty (filterDate cl))
                then params ++ [("date", filterDate cl)] else params in
  params.

Definition applyFilters (cl : State) (net : Network) : Update :=
  setLoading true ;; setError None ;;
  match apiRequest (net {| path := "/api/expenses";
                           params := filterParams cl |}) with
  | Some (VArr data) =>
      let validExpenses := filter isValidExpense data in
      setFilteredExpenses validExpenses ;;
      calculateTotal validExpenses ;;
      setShowFilterModal false
  | _ =>
      setError (Some "Error applying filters. Please try again.") ;;
      setFilteredExpenses [] ;; setTotalAmount 0%float
  end ;;
  setLoading false.

Definition getTotalForDateRange (cl : State) (net : Network) : Update :=
  if empty (filterStartDate cl) || empty (filterEndDate cl)
  then setError (Some "Please select both start and end dates")
  else
    setLoading true ;; setError None ;;
    match apiRequest (net {| path := "/api/expenses/total";
                             params := [("start", filterStartDate cl);
                                        ("end", filterEndDate cl)] |}) with
    | Some data =>
        match get "total" data with
        | Some (VNum total) =>
            if PrimFloat.is_nan total
            then setError (Some "Error fetching total. Please try again.") ;;
                 setTotalAmount 0%float
            else setTotalAmount total ;; setShowFilterModal false
        | _ => setError (Some "Error fetching total. Please try again.") ;;
               setTotalAmount 0%float
        end
    | None => setError (Some "Error fetching total. Please try again.") ;;
              setTotalAmount 0%float
    end ;;
    setLoading false.

Definition resetFilters (cl : State) : Update :=
  setFilterCategory "" ;;
  setFilterDate "" ;;
  setFilterStartDate "" ;;
  setFilterEndDate "" ;;
  setFilteredExpenses (expenses cl) ;;
  calculateTotal (expenses cl) ;;
  setShowFilterModal false ;;
  setError None.

(** An operation started in state [st]: its closure holds [st], and its
    setter calls apply to [st] in turn. *)
Definition run (op : State -> Update) (st : State) : State := op st st.

End Client.

(* ================================================================= *)
(** ** Sample data for the closed examples

    The first two records that [seedInitialData] inserts, as stored and
    as request bodies.  No example converts between strings and numbers,
    and the sample documents are created at the epoch, so the runtime
    below is enough for them. *)

Module Sample.

Definition js_Number (s : string) : float := PrimFloat.nan.
Definition js_String (x : float) : string := "NaN".
Definition toISOString (ms : Z) : string := "1970-01-01T00:00:00.000Z".

(** An accumulator for the examples, whose groups hold one amount
    each: it gives that amount. *)
Definition store_sum (amounts : list float) : float :=
  match amounts with
  | [x] => x
  | _ => sum_numbers amounts
  end.

Definition env1 : Server.Env :=
  {| Server.oid := "65a4f0c2e13b8a0012d4c001"; Server.now := 0 |}.
Definition env2 : Server.Env :=
  {| Server.oid := "65a4f0c2e13b8a0012d4c002"; Server.now := 0 |}.

Definition food : Server.ExpenseDoc :=
  {| Server._id := "65a4f0c2e13b8a0012d4c001";
     Server.amount := 45.99%float;
     Server.category := "Food";
     Server.date := "2025-01-15";
     Server.description := Some "";
     Server.createdAt := 0 |}.

Definition transportation : Server.ExpenseDoc :=
  {| Server._id := "65a4f0c2e13b8a0012d4c002";
     Server.amount := 12.5%float;
     Server.category := "Transportation";
     Server.date := "2025-01-14";
     Server.description := Some "";
     Server.createdAt := 0 |}.

Definition food_body (amount : float) : value :=
  VObj [("amount", VNum amount); ("category", VStr "Food");
        ("date", VStr "2025-01-15")].

Definition transportation_body : value :=
  VObj [("amount", VNum 12.5%float); ("category", VStr "Transportation");
        ("date", VStr "2025-01-14")].

(** The state of [App] at its first render, on 15 January 2025. *)
Definition initial : Client.State :=
  {| Client.expenses := []; Client.filteredExpenses := [];
     Client.loading := true; Client.error := None;
     Client.totalAmount := 0%float;
     Client.amount := ""; Client.category := "";
     Client.date := "2025-01-15"; Client.description := "";
     Client.filterCategory := ""; Client.filterDate := "";
     Client.filterStartDate := ""; Client.filterEndDate := "";
     Client.showAddModal := false; Client.showFilterModal := false |}.

(** A state after a load of the two records, with both range fields
    filled in. *)
Definition loaded : Client.State :=
  {| Client.expenses := [food_body 45.99%float; transportation_body];
     Client.filteredExpenses := [food_body 45.99%float];
     Client.loading := false; Client.error := None;
     Client.totalAmount := 45.99%float;
     Client.amount := ""; Client.category := "";
     Client.date := "2025-01-15"; Client.description := "";
     Client.filterCategory := "Food"; Client.filterDate := "";
     Client.filterStartDate := "2025-01-14";
     Client.filterEndDate := "2025-01-15";
     Client.showAddModal := false; Client.showFilterModal := true |}.

(** A server that answers every request with the same status and body,
    and one that cannot be reached. *)
Definition answers (status : nat) (json : value) : Client.Network :=
  fun _ => Client.HttpResponse status (Some json).

Definition unreachable : Client.Network := fun _ => Client.NetworkError.

(** Two elements of a fetched array: one whose amount is the string
    ["abc"], one whose category is a single space. *)
Definition abc_amount : value :=
  VObj [("amount", VStr "abc"); ("category", VStr "Food");
        ("date", VStr "2025-01-15")].

Definition blank_category : value :=
  VObj [("amount", VNum 5%float); ("category", VStr " ");
        ("date", VStr "2025-01-15")].

(** [req.query] of GET /api/expenses with the one parameter
    [category]. *)
Definition by_category (p : Server.param) : Server.QueryString :=
  {| Server.q_category := Some p; Server.q_date := None;
     Server.q_start := None; Server.q_end := None |}.

(** [req.query] of GET /api/expenses/total with the parameters [start]
    and [end], where given. *)
Definition bounds (start end_ : option Server.param) : Server.QueryString :=
  {| Server.q_category := None; Server.q_date := None;
     Server.q_start := start; Server.q_end := end_ |}.

End Sample.


(* ================================================================= *)
(** ** The wire between the two sides

    [res.json] and [JSON.stringify] write a number that is not finite as
    [null] and the negative zero as [0]; everything else arrives as it
    was sent. *)

Fixpoint wire (v : value) : value :=
  match v with
  | VNum x =>
      if PrimFloat.is_finite x
      then (if PrimFloat.is_zero x then VNum 0%float else VNum x)
      else VNull
  | VArr items => VArr (map wire items)
  | VObj props => VObj (map (fun kv => (fst kv, wire (snd kv))) props)
  | _ => v
  end.

(* ================================================================= *)
(** ** Start-up of the back end: [seedInitialData] *)

Module Startup.

Definition sample (amount : float) (category date description : string)
  : value :=
  VObj [("amount", VNum amount); ("category", VStr category);
        ("date", VStr date); ("description", VStr description)].

Definition sampleExpenses : list value :=
  [ sample 45.99%float "Food" "2025-01-15" "Grocery shopping at Whole Foods";
    sample 12.50%float "Transportation" "2025-01-14" "Uber ride to work";
    sample 1200.00%float "Housing" "2025-01-01" "Monthly rent payment";
    sample 35.75%float "Entertainment" "2025-01-10" "Movie tickets and snacks";
    sample 89.99%float "Utilities" "2025-01-05" "Electricity bill";
    sample 120.00%float "Healthcare" "2025-01-08" "Doctor appointment co-pay";
    sample 65.32%float "Shopping" "2025-01-12" "New t-shirts from H&M" ].

Section Seeding.

Variable js_Number : string -> float.
Variable js_String : float -> string.

(** The documents that [insertMany] builds: each object goes through the
    schema as in [save], [fresh i] being what the driver supplies to the
    [i]-th of them; one that fails validation fails them all. *)
Fixpoint validateAll (fresh : nat -> Server.Env) (i : nat) (docs : list value)
  : option (list Server.ExpenseDoc) :=
  match docs with
  | [] => Some []
  | o :: rest =>
      match Server.save js_Number js_String (fresh i)
              (get "amount" o) (get "category" o) (get "date" o)
              (get "description" o),
            validateAll fresh (S i) rest with
      | Some d, Some ds => Some (d :: ds)
      | _, _ => None
      end
  end.

(** [Expense.insertMany(docs)]: the new store, or [None] when it
    rejects, with nothing inserted. *)
Definition insertMany (fresh : nat -> Server.Env) (docs : list value)
    (db : Server.Store) : option Server.Store :=
  match validateAll fresh 0 docs with
  | Some ds => Some (db ++ ds)
  | None => None
  end.

(** [seedInitialData]: an error of [insertMany] is caught and logged. *)
Definition seedInitialData (fresh : nat -> Server.Env) (db : Server.Store)
  : Server.Store :=
  let count := List.length db in
  if Nat.eqb count 0
  then match insertMany fresh sampleExpenses db with
       | Some db' => db'
       | None => db
       end
  else db.

End Seeding.

End Startup.

(* ================================================================= *)
(** ** Series of requests *)

Module History.

(** For the statements: what every stored record satisfies. *)
Definition well_formed (d : Server.ExpenseDoc) : Prop :=
  PrimFloat.is_nan (Server.amount d) = false
  /\ Server.category d <> "" /\ Server.date d <> "".

Section Requests.

Variable js_Number : string -> float.
Variable js_String : float -> string.

(** For the statements: the store after a series of POST requests, each
    with what the driver supplies to it. *)
Fixpoint post_all (toISOString : Z -> string)
    (requests : list (Server.Env * value)) (db : Server.Store)
  : Server.Store :=
  match requests with
  | [] => db
  | (env, req_body) :: rest =>
      post_all toISOString rest
        (fst (Server.post_expenses js_Number js_String toISOString
                env req_body db))
  end.

End Requests.

End History.

(* ================================================================= *)
(** ** The client, continued: [addExpense] *)

Module ClientForm.
Import Client.

Definition setAmount (v : string) : Update := fun st =>
  {| expenses := expenses st; filteredExpenses := filteredExpenses st;
     loading := loading st; error := error st;
     totalAmount := totalAmount st; amount := v;
     category := category st; date := date st;
     description := description st; filterCategory := filterCategory st;
     filterDate := filterDate st; filterStartDate := filterStartDate st;
     filterEndDate := filterEndDate st; showAddModal := showAddModal st;
     showFilterModal := showFilterModal st |}.

Definition setCategory (v : string) : Update := fun st =>
  {| expenses := expenses st; filteredExpenses := filteredExpenses st;
     loading := loading st; error := error st;
     totalAmount := totalAmount st; amount := amount st;
     category := v; date := date st;
     description := description st; filterCategory := filterCategory st;
     filterDate := filterDate st; filterStartDate := filterStartDate st;
     filterEndDate := filterEndDate st; showAddModal := showAddModal st;
     showFilterModal := showFilterModal st |}.

Definition setDate (v : string) : Update := fun st =>
  {| expenses := expenses st; filteredExpenses := filteredExpenses st;
     loading := loading st; error := error st;
     totalAmount := totalAmount st; amount := amount st;
     category := category st; date := v;
     description := description st; filterCategory := filterCategory st;
     filterDate := filterDate st; filterStartDate := filterStartDate st;
     filterEndDate := filterEndDate st; showAddModal := showAddModal st;
     showFilterModal := showFilterModal st |}.

Definition setDescription (v : string) : Update := fun st =>
  {| expenses := expenses st; filteredExpenses := filteredExpenses st;
     loading := loading st; error := error st;
     totalAmount := totalAmount st; amount := amount st;
     category := category st; date := date st;
     description := v; filterCategory := filterCategory st;
     filterDate := filterDate st; filterStartDate := filterStartDate st;
     filterEndDate := filterEndDate st; showAddModal := showAddModal st;
     showFilterModal := showFilterModal st |}.

Definition setShowAddModal (v : bool) : Update := fun st =>
  {| expenses := expenses st; filteredExpenses := filteredExpenses st;
     loading := loading st; error := error st;
     totalAmount := totalAmount st; amount := amount st;
     category := category st; date := date st;
     description := description st; filterCategory := filterCategory st;
     filterDate := filterDate st; filterStartDate := filterStartDate st;
     filterEndDate := filterEndDate st; showAddModal := v;
     showFilterModal := showFilterModal st |}.

(** For the statements: both lists hold only elements that pass
    [isValidExpense]. *)
Definition valid_lists (st : State) : Prop :=
  Forall (fun e => isValidExpense e = true) (expenses st)
  /\ Forall (fun e => isValidExpense e = true) (filteredExpenses st).

(** The object literal [newExpense]. *)
Definition newExpense (amountNum : float) (cl : State) : value :=
  VObj [("amount", VNum amountNum);
        ("category", VStr (category cl));
        ("date", VStr (date cl));
        ("description", VStr (trim (description cl)))].

Section AddExpense.

(** [parseFloat] on the text of the amount field, and today's date as
    [format(new Date(), 'yyyy-MM-dd')] gives it, left abstract. *)
Variable parseFloat : string -> float.
Variable today : string.

(** [addExpense]: [post] is the POST to [/api/expenses], given the body
    as it arrives, [net] the network of the reload that follows. *)
Definition addExpense (cl : State) (post : value -> FetchResult)
    (net : Network) : Update :=
  setError None ;;
  (if empty (amount cl) || empty (category cl) || empty (date cl)
   then setError (Some "Please fill in all required fields")
   else
     let amountNum := parseFloat (amount cl) in
     if PrimFloat.is_nan amountNum || PrimFloat.leb amountNum 0%float
     then setError (Some "Please enter a valid amount")
     else
       match apiRequest (post (wire (newExpense amountNum cl))) with
       | Some _ =>
           setAmount "" ;; setCategory "" ;; setDate today ;;
           setDescription "" ;; setShowAddModal false ;;
           fetchExpenses net
       | None => setError (Some "Error adding expense. Please try again.")
       end).

End AddExpense.

End ClientForm.

(* ================================================================= *)
(** ** The client in front of the back end

    The client asks [http://localhost:5000], the port the back end
    listens on by default; a store [db] behind it answers the requests
    of the client as the handlers do. *)

Module Served.

Definition respond (r : Server.Response) : Client.FetchResult :=
  Client.HttpResponse (Server.status r) (Some (wire (Server.body r))).

(** What the query parser makes of the pairs of a query string whose
    names are plain, as the names that the client sends are: under a
    name, nothing when no pair has it, the value when one pair has it,
    the list of the values when several have. *)
Definition values_of (name : string) (pairs : list (string * string))
  : list string :=
  map snd (filter (fun kv => String.eqb (fst kv) name) pairs).

Definition param_named (name : string) (pairs : list (string * string))
  : option Server.param :=
  match values_of name pairs with
  | [] => None
  | [v] => Some (Server.PStr v)
  | items => Some (Server.PArr items)
  end.

Definition parse_query (pairs : list (string * string)) : Server.QueryString :=
  {| Server.q_category := param_named "category" pairs;
     Server.q_date := param_named "date" pairs;
     Server.q_start := param_named "start" pairs;
     Server.q_end := param_named "end" pairs |}.

Definition serve (toISOString : Z -> string)
    (store_sum : list float -> float) (db : Server.Store)
  : Client.Network :=
  fun req =>
    let query := parse_query (Client.params req) in
    if String.eqb (Client.path req) "/api/expenses"
    then respond (Server.get_expenses toISOString query db)
    else if String.eqb (Client.path req) "/api/expenses/total"
    then respond (Server.get_total query db)
    else if String.eqb (Client.path req) "/api/expenses/by-category"
    then respond (Server.get_by_category store_sum db)
    else Client.HttpResponse 404 None.

(** For the statements: the stored records that Load keeps. *)
Definition displayable (d : Server.ExpenseDoc) : bool :=
  PrimFloat.is_finite (Server.amount d)
  && PrimFloat.ltb 0%float (Server.amount d)
  && negb (String.eqb (trim (Server.category d)) "")
  && negb (String.eqb (trim (Server.date d)) "")
  && match Server.description d with Some _ => true | None => false end.

End Served.

(* ================================================================= *)
(** ** More sample data for the closed examples *)

Module Sample2.
Import Sample.

(** [parseFloat] on the one text that the examples type in. *)
Definition parseFloat (s : string) : float :=
  if String.eqb s "12.5" then 12.5%float else PrimFloat.nan.

Definition today : string := "2025-01-15".

(** The add form filled in, and with the amount left empty. *)
Definition form (amount : string) : Client.State :=
  {| Client.expenses := [food_body 45.99%float];
     Client.filteredExpenses := [food_body 45.99%float];
     Client.loading := false; Client.error := None;
     Client.totalAmount := 45.99%float;
     Client.amount := amount; Client.category := "Transportation";
     Client.date := "2025-01-14"; Client.description := " Uber ride ";
     Client.filterCategory := ""; Client.filterDate := "";
     Client.filterStartDate := ""; Client.filterEndDate := "";
     Client.showAddModal := true; Client.showFilterModal := false |}.

(** A record with a negative amount, as the back end stores it. *)
Definition refund : Server.ExpenseDoc :=
  {| Server._id := "65a4f0c2e13b8a0012d4c003";
     Server.amount := (-20)%float;
     Server.category := "Shopping";
     Server.date := "2025-01-15";
     Server.description := Some "";
     Server.createdAt := 0 |}.

Definition fresh (i : nat) : Server.Env :=
  {| Server.oid := "65a4f0c2e13b8a0012d4c0" ++ String (ascii_of_nat (48 + i)) "";
     Server.now := 0 |}.

End Sample2.

(* ================================================================= *)
(** * Properties *)

(** ** The sort: a sorted permutation of its input *)

Section SortDescFacts.
Context {A : Type} (ge : A -> A -> bool).

Local Abbreviation insert := (insert_desc ge).
Local Abbreviation sort := (sort_desc ge).
Local Abbreviation desc := (desc ge).

Lemma insert_desc_perm x l : Permutation (insert x l) (x :: l).
Proof.
  induction l as [|y l IH]; simpl; [reflexivity|].
  destruct (ge y x); [|reflexivity].
  rewrite IH. apply perm_swap.
Qed.

Lemma fold_insert_perm l : forall acc,
  Permutation (fold_left (fun acc x => insert x acc) l acc) (acc ++ l).
Proof.
  induction l as [|x l IH]; intros acc; simpl.
  - now rewrite app_nil_r.
  - rewrite IH, insert_desc_perm. apply Permutation_middle.
Qed.

Lemma sort_desc_perm l : Permutation (sort l) l.
Proof. unfold sort_desc. now rewrite fold_insert_perm. Qed.

Hypothesis ge_total : forall x y, ge x y = false -> ge y x = true.

Lemma insert_desc_hd x y l :
  desc y x -> HdRel desc y l -> HdRel desc y (insert x l).
Proof.
  intros Hyx Hl. destruct l as [|z l]; simpl.
  - now constructor.
  - destruct (ge z x); constructor; [now inversion Hl | exact Hyx].
Qed.

Lemma insert_desc_sorted x l : Sorted desc l -> Sorted desc (insert x l).
Proof.
  induction 1 as [|y l Hs IH Hhd]; simpl.
  - repeat constructor.
  - destruct (ge y x) eqn:E.
    + constructor; [exact IH | now apply insert_desc_hd].
    + constructor; [now constructor | constructor; now apply ge_total].
Qed.

Lemma fold_insert_sorted l : forall acc,
  Sorted desc acc ->
  Sorted desc (fold_left (fun acc x => insert x acc) l acc).
Proof.
  induction l as [|x l IH]; intros acc Hacc; simpl; [exact Hacc|].
  apply IH. now apply insert_desc_sorted.
Qed.

Lemma sort_desc_sorted l : Sorted desc (sort l).
Proof. apply fold_insert_sorted. constructor. Qed.
End SortDescFacts.

(* ----------------------------------------------------------------- *)
(** *** Facts on binary64 comparisons *)

Lemma is_nan_spec x : PrimFloat.is_nan x = negb (SFeqb (Prim2SF x) (Prim2SF x)).
Proof. unfold PrimFloat.is_nan. now rewrite FloatAxioms.eqb_spec. Qed.

Lemma SFcompare_antisym a b c :
  SFcompare a b = Some c -> SFcompare b a = Some (CompOpp c).
Proof.
  destruct a as [sa|sa| |sa ma ea], b as [sb|sb| |sb mb eb]; simpl;
    intros H; inversion H; subst; clear H;
    try (destruct sa); try (destruct sb); try reflexivity.
  all: rewrite (Z.compare_antisym ea eb);
    destruct (ea ?= eb)%Z; simpl; try reflexivity.
  all: change PosDef.Pos.compare_cont with Pos.compare_cont.
  all: pose proof (Pos.compare_cont_antisym ma mb Eq) as E; simpl in E;
    rewrite <- E; now rewrite ?CompOpp_involutive.
Qed.

Lemma SFcompare_some a b :
  SFeqb a a = true -> SFeqb b b = true -> exists c, SFcompare a b = Some c.
Proof.
  unfold SFeqb.
  destruct a as [sa|sa| |sa ma ea], b as [sb|sb| |sb mb eb]; simpl;
    try discriminate; intros _ _; eexists; reflexivity.
Qed.


Lemma positive_truthy x : PrimFloat.ltb 0 x = true -> truthy (Some (VNum x)) = true.
Proof.
  simpl. unfold PrimFloat.is_zero. rewrite is_nan_spec, FloatAxioms.ltb_spec, FloatAxioms.eqb_spec.
  change (Prim2SF 0) with (S754_zero false).
  change (Prim2SF PrimFloat.zero) with (S754_zero false).
  unfold SFltb, SFeqb.
  destruct (Prim2SF x) as [s|s| |s m e]; simpl; try discriminate;
    try destruct s; try discriminate; try reflexivity.
  all: now rewrite Z.compare_refl, Pos.compare_cont_refl.
Qed.

Lemma negative_truthy x : PrimFloat.ltb x 0 = true -> truthy (Some (VNum x)) = true.
Proof.
  simpl. unfold PrimFloat.is_zero. rewrite is_nan_spec, FloatAxioms.ltb_spec, FloatAxioms.eqb_spec.
  change (Prim2SF 0) with (S754_zero false).
  change (Prim2SF PrimFloat.zero) with (S754_zero false).
  unfold SFltb, SFeqb.
  destruct (Prim2SF x) as [s|s| |s m e]; simpl; try discriminate;
    try destruct s; try discriminate; try reflexivity.
  all: now rewrite Z.compare_refl, Pos.compare_cont_refl.
Qed.

Lemma str_leb_total s t : str_leb s t = false -> str_leb t s = true.
Proof.
  unfold str_leb. intros H.
  destruct (String.leb_total s t) as [H'|H']; congruence.
Qed.

(* ================================================================= *)
(** ** The back end *)

Section ServerFacts.
Import Server.

Variable js_Number : string -> float.
Variable js_String : float -> string.
Variable toISOString : Z -> string.
Variable store_sum : list float -> float.

Local Abbreviation post_expenses :=
  (Server.post_expenses js_Number js_String toISOString).
Local Abbreviation save := (Server.save js_Number js_String).
Local Abbreviation castNumber := (Server.castNumber js_Number).
Local Abbreviation castString := (Server.castString js_String).
Local Abbreviation doc_json := (Server.doc_json toISOString).
Local Abbreviation get_expenses := (Server.get_expenses toISOString).
Local Abbreviation get_by_category := (Server.get_by_category store_sum).
Local Abbreviation group_by_category := (Server.group_by_category store_sum).

Lemma truthy_str_value s : truthy (Some (VStr s)) = true <-> s <> "".
Proof.
  simpl. rewrite negb_true_iff. apply String.eqb_neq.
Qed.

Lemma truthy_num_not_nan x :
  truthy (Some (VNum x)) = true -> PrimFloat.is_nan x = false.
Proof.
  simpl. rewrite negb_true_iff, orb_false_iff. tauto.
Qed.

Lemma requiredString_nonempty c s : requiredString c = Some s -> s <> "".
Proof.
  destruct c as [s'| |]; simpl; try discriminate.
  destruct (String.eqb s' "") eqn:E; [discriminate|].
  intros H; inversion H; subst. now apply String.eqb_neq.
Qed.

(** A falsy required field: the guard answers 400 and the store is the
    one it was. *)
Lemma post_falsy env req_body db :
  truthy (get "amount" req_body) = false
  \/ truthy (get "category" req_body) = false
  \/ truthy (get "date" req_body) = false ->
  post_expenses env req_body db
  = (db, {| status := 400;
            body := message "Please provide amount, category, and date" |}).
Proof.
  unfold Server.post_expenses. intros [H|[H|H]]; rewrite H; simpl;
    rewrite ?orb_true_r; reflexivity.
Qed.

(** A number other than NaN and zero, non-empty strings for category and
    date, and a description that is absent or a string: the document is
    built from them, appended and sent back with 201. *)
Lemma post_created env req_body db a c d :
  get "amount" req_body = Some (VNum a) ->
  truthy (Some (VNum a)) = true ->
  get "category" req_body = Some (VStr c) -> c <> "" ->
  get "date" req_body = Some (VStr d) -> d <> "" ->
  (get "description" req_body = None
   \/ exists s, get "description" req_body = Some (VStr s)) ->
  exists doc,
    post_expenses env req_body db
      = (db ++ [doc], {| status := 201; body := doc_json doc |})
    /\ _id doc = oid env /\ amount doc = a
    /\ category doc = c /\ date doc = d
    /\ createdAt doc = now env.
Proof.
  intros Ha Ta Hc Nc Hd Nd Hdesc.
  unfold Server.post_expenses, Server.save.
  rewrite Ha, Hc, Hd, Ta.
  rewrite (proj2 (truthy_str_value c) Nc), (proj2 (truthy_str_value d) Nd).
  cbn [negb orb Server.castNumber Server.castString requiredString].
  rewrite (truthy_num_not_nan a Ta).
  apply String.eqb_neq in Nc, Nd. rewrite Nc, Nd.
  cbn [requiredNumber].
  destruct Hdesc as [Hn|[s Hs]]; [rewrite Hn | rewrite Hs]; cbn;
    eexists; repeat split.
Qed.

(** Whatever the request, a 201 answer means one document was appended,
    and its category and date are non-empty strings. *)
Lemma post_201_inv env req_body db db' r :
  post_expenses env req_body db = (db', r) -> status r = 201 ->
  exists doc, db' = db ++ [doc] /\ r = {| status := 201; body := doc_json doc |}
              /\ category doc <> "" /\ date doc <> "".
Proof.
  unfold Server.post_expenses.
  destruct (negb _ || negb _ || negb _).
  - intros H; inversion H; subst; simpl; discriminate.
  - unfold Server.save.
    destruct (requiredNumber _) as [a|] eqn:Ea;
      [|intros H; inversion H; subst; simpl; discriminate].
    destruct (requiredString (castString (get "category" req_body)))
      as [c|] eqn:Ec;
      [|intros H; inversion H; subst; simpl; discriminate].
    destruct (requiredString (castString (get "date" req_body)))
      as [d|] eqn:Ed;
      [|intros H; inversion H; subst; simpl; discriminate].
    apply requiredString_nonempty in Ec, Ed.
    destruct (castString (get "description" req_body));
      intros H; inversion H; subst; simpl; try discriminate;
      intros _; eexists; repeat split; simpl; assumption.
Qed.

(* ----------------------------------------------------------------- *)
(** *** Listing and the range total *)

Lemma fold_left_add_map {A : Type} (f : A -> float) (l : list A) :
  forall acc,
    fold_left (fun sum x => PrimFloat.add sum (f x)) l acc
    = fold_left PrimFloat.add (map f l) acc.
Proof.
  induction l as [|x l IH]; intros acc; simpl; [reflexivity | apply IH].
Qed.

Lemma sum_numbers_snoc l a :
  sum_numbers (l ++ [a]) = PrimFloat.add (sum_numbers l) a.
Proof. unfold sum_numbers. now rewrite fold_left_app. Qed.

Lemma existsb_eqb_In (v : string) (items : list string) :
  existsb (String.eqb v) items = true <-> In v items.
Proof.
  rewrite existsb_exists. split.
  - intros (x & Hx & E). apply String.eqb_eq in E. now subst.
  - intros H. exists v. split; [exact H | apply String.eqb_refl].
Qed.

Lemma selects_spec (p : option param) (v : string) :
  selects p v = true <->
  (forall s, p = Some (PStr s) -> s <> "" -> v = s)
  /\ (forall items, p = Some (PArr items) -> In v items).
Proof.
  unfold selects. destruct p as [[s|items]|].
  - destruct (String.eqb s "") eqn:E.
    + apply String.eqb_eq in E. subst. split; [|reflexivity].
      intros _. split; [|discriminate].
      intros s Hs Ns. inversion Hs; subst. contradiction.
    + apply String.eqb_neq in E. rewrite String.eqb_eq. split.
      * intros ->. split; [|discriminate]. intros s' Hs _. now inversion Hs.
      * intros [H _]. now apply H.
  - rewrite existsb_eqb_In. split.
    + intros H. split; [discriminate|]. intros l Hl. now inversion Hl; subst.
    + intros [_ H]. now apply H.
  - split; [|reflexivity]. intros _. split; discriminate.
Qed.

Lemma Permutation_in_iff {A : Type} (l l' : list A) (x : A) :
  Permutation l l' -> (In x l <-> In x l').
Proof.
  intros P. split; apply Permutation_in; [exact P | now apply Permutation_sym].
Qed.

(** The filter that [get_expenses] builds is never refused, and finds
    the records that both parameters let through. *)
Lemma find_listing_query (category date : option param) (db : Store) :
  find ((if truthy_param category
         then [] ++ [("category", Is (param_of category))] else [])
        ++ (if truthy_param date
            then [("date", Is (param_of date))] else [])) db
  = Some (filter (fun d => selects category (Server.category d)
                           && selects date (Server.date d)) db).
Proof.
  unfold find.
  destruct category as [[c|cs]|], date as [[x|xs]|]; simpl;
    try destruct (String.eqb c ""); try destruct (String.eqb x "");
    simpl; f_equal; apply filter_ext; intros d; simpl;
    rewrite ?andb_true_r; reflexivity.
Qed.

Lemma get_expenses_eq (q : QueryString) (db : Store) :
  get_expenses q db
  = {| status := 200;
       body := VArr (map doc_json
                 (sort_date_desc
                    (filter (fun d => selects (q_category q) (category d)
                                      && selects (q_date q) (date d))
                            db))) |}.
Proof.
  unfold Server.get_expenses. cbv zeta.
  replace (if truthy_param (q_date q)
           then (if truthy_param (q_category q)
                 then [] ++ [("category", Is (param_of (q_category q)))]
                 else [])
                ++ [("date", Is (param_of (q_date q)))]
           else if truthy_param (q_category q)
                then [] ++ [("category", Is (param_of (q_category q)))]
                else [])
    with ((if truthy_param (q_category q)
           then [] ++ [("category", Is (param_of (q_category q)))]
           else [])
          ++ (if truthy_param (q_date q)
              then [("date", Is (param_of (q_date q)))] else []))
    by (destruct (truthy_param (q_category q)),
                 (truthy_param (q_date q)); reflexivity).
  now rewrite find_listing_query.
Qed.

Lemma date_ge_total a b : date_ge a b = false -> date_ge b a = true.
Proof. unfold date_ge. apply str_leb_total. Qed.

Lemma get_total_ok (q : QueryString) (db : Store) s e :
  q_start q = Some (PStr s) -> s <> "" ->
  q_end q = Some (PStr e) -> e <> "" ->
  get_total q db
  = {| status := 200;
       body := VObj [("total",
                 VNum (sum_numbers
                         (map amount
                            (filter (fun d => String.leb s (date d)
                                              && String.leb (date d) e) db))))] |}.
Proof.
  intros Hs Ns He Ne. unfold get_total. rewrite Hs, He. simpl.
  apply String.eqb_neq in Ns, Ne. rewrite Ns, Ne. simpl.
  rewrite fold_left_add_map. unfold sum_numbers.
  do 7 f_equal. apply filter_ext. intros d. simpl.
  unfold str_leb. now rewrite andb_true_r.
Qed.

Lemma get_total_bad (q : QueryString) (db : Store) :
  truthy_param (q_start q) = false
  \/ truthy_param (q_end q) = false ->
  get_total q db
  = {| status := 400; body := message "Please provide start and end dates" |}.
Proof.
  unfold get_total. intros [H|H]; rewrite H; simpl;
    rewrite ?orb_true_r; reflexivity.
Qed.

(** A bound given several times passes the guard as an array, and the
    cast of the filter refuses it. *)
Lemma get_total_refused (q : QueryString) (db : Store) :
  truthy_param (q_start q) = true ->
  truthy_param (q_end q) = true ->
  (exists items, q_start q = Some (PArr items))
  \/ (exists items, q_end q = Some (PArr items)) ->
  get_total q db = {| status := 500; body := message "Server error" |}.
Proof.
  unfold get_total. intros Ts Te H. rewrite Ts, Te. simpl.
  destruct H as [[items H]|[items H]]; rewrite H; unfold find; simpl;
    [reflexivity|].
  destruct (q_start q) as [[s|l]|]; reflexivity.
Qed.

(* ----------------------------------------------------------------- *)
(** *** The [$group] stage *)











(* ----------------------------------------------------------------- *)
(** *** The handlers against the specification *)

(** C1 (as amended).  POST /api/expenses: when amount, category or date
    is absent the answer is 400 and the store is unchanged; when amount
    is a positive or a negative number, category and date are non-empty
    strings and description is absent or a string, the answer is 201
    with the stored record, which carries the assigned identifier and is
    appended to the store; a zero amount is answered 400 and stores
    nothing. *)
Theorem post_expenses_spec (env : Env) (req_body : value) (db : Store) :
  (get "amount" req_body = None \/ get "category" req_body = None
   \/ get "date" req_body = None ->
   post_expenses env req_body db
   = (db, {| status := 400;
             body := message "Please provide amount, category, and date" |}))
  /\ (forall a c d,
        get "amount" req_body = Some (VNum a) ->
        PrimFloat.ltb 0 a = true \/ PrimFloat.ltb a 0 = true ->
        get "category" req_body = Some (VStr c) -> c <> "" ->
        get "date" req_body = Some (VStr d) -> d <> "" ->
        (get "description" req_body = None
         \/ exists s, get "description" req_body = Some (VStr s)) ->
        exists doc,
          post_expenses env req_body db
          = (db ++ [doc], {| status := 201; body := doc_json doc |})
          /\ get "_id" (doc_json doc) = Some (VStr (oid env))
          /\ amount doc = a /\ category doc = c /\ date doc = d)
  /\ (forall a,
        get "amount" req_body = Some (VNum a) ->
        PrimFloat.eqb a 0 = true ->
        post_expenses env req_body db
        = (db, {| status := 400;
                  body := message "Please provide amount, category, and date" |})).
Proof.
  split; [|split].
  - intros H. apply post_falsy.
    destruct H as [H|[H|H]]; rewrite H; simpl; tauto.
  - intros a c d Ha Hsign Hc Nc Hd Nd Hdesc.
    assert (Ta : truthy (Some (VNum a)) = true)
      by (destruct Hsign; [now apply positive_truthy | now apply negative_truthy]).
    destruct (post_created env req_body db a c d Ha Ta Hc Nc Hd Nd Hdesc)
      as (doc & Hpost & Hid & Hrest).
    exists doc. split; [exact Hpost|]. split; [|tauto].
    simpl. now rewrite Hid.
  - intros a Ha Hz. apply post_falsy. left. rewrite Ha. simpl.
    change (PrimFloat.is_zero a) with (PrimFloat.eqb a 0%float).
    rewrite Hz. now rewrite orb_true_r.
Qed.

(** C9.  POST /api/expenses with category or date equal to the empty
    string is answered 400 and inserts nothing; and whenever the endpoint
    answers 201, the record it created has a non-empty category and a
    non-empty date. *)
Theorem post_expenses_empty_string (env : Env) (req_body : value) (db : Store) :
  (get "category" req_body = Some (VStr "")
   \/ get "date" req_body = Some (VStr "") ->
   post_expenses env req_body db
   = (db, {| status := 400;
             body := message "Please provide amount, category, and date" |}))
  /\ (forall db' r,
        post_expenses env req_body db = (db', r) -> status r = 201 ->
        exists doc, db' = db ++ [doc]
                    /\ r = {| status := 201; body := doc_json doc |}
                    /\ category doc <> "" /\ date doc <> "").
Proof.
  split.
  - intros H. apply post_falsy. destruct H as [H|H]; rewrite H; simpl; tauto.
  - intros db' r. apply post_201_inv.
Qed.

(** C4 (as amended).  GET /api/expenses, for a query whose category and
    date parameters are strings or lists of strings, answers 200 with
    the stored records that both parameters let through: an absent
    parameter or one given with an empty value lets every record
    through, a non-empty string the records whose field equals it
    exactly, and a parameter given several times the records whose field
    equals one of its values; so with no parameter, all of them.  The
    records come ordered by date, descending in the bytewise order of
    strings. *)
Theorem get_expenses_spec (q : QueryString) (db : Store) :
  exists l,
    get_expenses q db = {| status := 200; body := VArr (map doc_json l) |}
    /\ Permutation l
         (filter (fun d => selects (q_category q) (category d)
                           && selects (q_date q) (date d)) db)
    /\ (q_category q = None -> q_date q = None -> Permutation l db)
    /\ (forall d,
          In d l <->
          In d db
          /\ (forall c, q_category q = Some (PStr c) -> c <> "" ->
                        category d = c)
          /\ (forall cs, q_category q = Some (PArr cs) ->
                         In (category d) cs)
          /\ (forall x, q_date q = Some (PStr x) -> x <> "" ->
                        date d = x)
          /\ (forall xs, q_date q = Some (PArr xs) -> In (date d) xs))
    /\ Sorted (fun a b => String.leb (date b) (date a) = true) l.
Proof.
  exists (sort_date_desc
            (filter (fun d => selects (q_category q) (category d)
                              && selects (q_date q) (date d)) db)).
  split; [apply get_expenses_eq|].
  assert (P := sort_desc_perm date_ge
                 (filter (fun d => selects (q_category q) (category d)
                                   && selects (q_date q) (date d)) db)).
  split; [exact P|]. split; [|split].
  - intros Hc Hd. apply (Permutation_trans P). rewrite Hc, Hd. simpl.
    clear P. induction db as [|d db IH]; simpl; auto.
  - intros d. rewrite (Permutation_in_iff _ _ d P), filter_In, andb_true_iff.
    rewrite !selects_spec. tauto.
  - apply (sort_desc_sorted date_ge date_ge_total).
Qed.

(** C3 (as amended).  GET /api/expenses/total, for a query whose start
    and end parameters are strings or lists of strings: it answers 400
    when start or end is missing or empty; when both are non-empty
    strings, 200 with [{total: s}], [s] the sum, from 0 and in store
    order, of the amounts of the stored records whose date lies between
    start and end inclusive in the bytewise order of strings; and when
    both are present and one of them is given several times, 500. *)
Theorem get_total_spec (q : QueryString) (db : Store) :
  (q_start q = None \/ q_start q = Some (PStr "")
   \/ q_end q = None \/ q_end q = Some (PStr "") ->
   get_total q db
   = {| status := 400; body := message "Please provide start and end dates" |})
  /\ (forall s e,
        q_start q = Some (PStr s) -> s <> "" ->
        q_end q = Some (PStr e) -> e <> "" ->
        get_total q db
        = {| status := 200;
             body := VObj [("total",
                       VNum (sum_numbers
                               (map amount
                                  (filter (fun d => String.leb s (date d)
                                                    && String.leb (date d) e)
                                          db))))] |})
  /\ (truthy_param (q_start q) = true ->
      truthy_param (q_end q) = true ->
      (exists items, q_start q = Some (PArr items))
      \/ (exists items, q_end q = Some (PArr items)) ->
      get_total q db = {| status := 500; body := message "Server error" |}).
Proof.
  split; [|split].
  - intros H. apply get_total_bad.
    destruct H as [H|[H|[H|H]]]; rewrite H; simpl; tauto.
  - intros s e. apply get_total_ok.
  - apply get_total_refused.
Qed.

(** C8.  With exactly the two records of amounts 45.99 (Food,
    2025-01-15) and 12.50 (Transportation, 2025-01-14) in the store, in
    either order, GET /api/expenses/total with start=2025-01-14 and
    end=2025-01-15 answers [{total: 58.49}]. *)
Theorem get_total_scenario (id1 id2 : string) (desc1 desc2 : option string)
    (t1 t2 : Z) :
  let food := {| _id := id1; amount := 45.99%float; category := "Food";
                 date := "2025-01-15"; description := desc1;
                 createdAt := t1 |} in
  let transportation :=
    {| _id := id2; amount := 12.5%float; category := "Transportation";
       date := "2025-01-14"; description := desc2; createdAt := t2 |} in
  let q := {| q_category := None; q_date := None;
              q_start := Some (PStr "2025-01-14");
              q_end := Some (PStr "2025-01-15") |} in
  get_total q [food; transportation]
  = {| status := 200; body := VObj [("total", VNum 58.49%float)] |}
  /\ get_total q [transportation; food]
     = {| status := 200; body := VObj [("total", VNum 58.49%float)] |}.
Proof. split; vm_compute; reflexivity. Qed.


End ServerFacts.

(* ================================================================= *)
(** ** The client *)

Section ClientFacts.
Import Client.

Lemma isValidExpense_spec (e : value) :
  isValidExpense e = true <->
  exists a c d,
    get "amount" e = Some (VNum a)
    /\ PrimFloat.is_nan a = false /\ PrimFloat.ltb 0 a = true
    /\ get "category" e = Some (VStr c) /\ trim c <> ""
    /\ get "date" e = Some (VStr d) /\ trim d <> ""
    /\ (get "description" e = None
        \/ exists s, get "description" e = Some (VStr s)).
Proof.
  split.
  - unfold isValidExpense. intros H.
    assert (Hobj : match e with VObj _ | VArr _ => True | _ => False end)
      by (destruct e; try discriminate; exact I).
    assert (H' :
      (match get "amount" e with
       | Some (VNum a) => negb (PrimFloat.is_nan a) && PrimFloat.ltb 0 a
       | _ => false end
       && match get "category" e with
          | Some (VStr c) => negb (String.eqb (trim c) "")
          | _ => false end
       && match get "date" e with
          | Some (VStr d) => negb (String.eqb (trim d) "")
          | _ => false end
       && match get "description" e with
          | None | Some (VStr _) => true
          | Some _ => false end) = true)
      by (destruct e; try contradiction; exact H).
    clear H Hobj. rewrite !andb_true_iff in H'.
    destruct H' as [[[Ha Hc] Hd] Hs].
    destruct (get "amount" e) as [[| |a| | |]|]; try discriminate.
    destruct (get "category" e) as [[| | |c| |]|]; try discriminate.
    destruct (get "date" e) as [[| | |d| |]|]; try discriminate.
    apply andb_true_iff in Ha. destruct Ha as [Ha1 Ha2].
    apply negb_true_iff in Ha1, Hc, Hd. apply String.eqb_neq in Hc, Hd.
    exists a, c, d. repeat split; try assumption.
    destruct (get "description" e) as [[| | |s| |]|]; try discriminate;
      [right; now exists s | now left].
  - intros (a & c & d & Ha & Hnan & Hpos & Hc & Nc & Hd & Nd & Hdesc).
    apply String.eqb_neq in Nc, Nd.
    destruct e; try (simpl in Ha; discriminate).
    unfold isValidExpense. rewrite Ha, Hc, Hd, Hnan, Hpos, Nc, Nd.
    destruct Hdesc as [H|[s H]]; rewrite H; reflexivity.
Qed.

Lemma calculateTotal_eq (l : list value) (st : State) :
  totalAmount (calculateTotal l st) = sum_numbers (map amount_of l).
Proof.
  unfold calculateTotal, sum_numbers. simpl. apply fold_left_add_map.
Qed.

(** C5 (as amended).  Load, given the fetched array: the elements kept
    are those that pass the shape check (amount a number, not NaN and
    above 0; category and date strings that are non-empty once trimmed;
    description absent or a string); both lists become the kept elements
    and the total the sum of their amounts, with no error set; an element
    whose amount is the string "abc" is in neither list. *)
Theorem fetchExpenses_spec (net : Network) (st : State) (status : nat)
    (data : list value) :
  net {| path := "/api/expenses"; params := [] |}
    = HttpResponse status (Some (VArr data)) ->
  ok status = true ->
  let kept := filter isValidExpense data in
  let st' := fetchExpenses net st in
  expenses st' = kept
  /\ filteredExpenses st' = kept
  /\ totalAmount st' = sum_numbers (map amount_of kept)
  /\ error st' = None
  /\ (forall e,
        In e kept <->
        In e data
        /\ exists a c d,
             get "amount" e = Some (VNum a)
             /\ PrimFloat.is_nan a = false /\ PrimFloat.ltb 0 a = true
             /\ get "category" e = Some (VStr c) /\ trim c <> ""
             /\ get "date" e = Some (VStr d) /\ trim d <> ""
             /\ (get "description" e = None
                 \/ exists s, get "description" e = Some (VStr s)))
  /\ (forall e,
        get "amount" e = Some (VStr "abc") ->
        ~ In e (expenses st') /\ ~ In e (filteredExpenses st')).
Proof.
  intros Hnet Hok kept st'.
  assert (E : st' = setLoading false
                      (calculateTotal kept
                         (setFilteredExpenses kept
                            (setExpenses kept
                               (setError None (setLoading true st)))))).
  { subst st'. unfold fetchExpenses, seq. rewrite Hnet. simpl. now rewrite Hok. }
  assert (Hexp : expenses st' = kept) by (rewrite E; reflexivity).
  assert (Hfil : filteredExpenses st' = kept) by (rewrite E; reflexivity).
  repeat split; try assumption.
  - rewrite E. simpl. apply fold_left_add_map.
  - rewrite E. reflexivity.
  - apply filter_In in H. tauto.
  - apply filter_In in H. now apply isValidExpense_spec.
  - intros [Hin Hshape]. apply filter_In. split; [exact Hin|].
    now apply isValidExpense_spec.
  - rewrite Hexp. intros Hin. apply filter_In in Hin.
    destruct Hin as [_ Hv]. apply isValidExpense_spec in Hv.
    destruct Hv as (a & c & d & Ha & _). congruence.
  - rewrite Hfil. intros Hin. apply filter_In in Hin.
    destruct Hin as [_ Hv]. apply isValidExpense_spec in Hv.
    destruct Hv as (a & c & d & Ha & _). congruence.
Qed.

(** C6.  Compute range total: with the start or the end field empty it
    only sets the error message; with both filled in and a 2xx answer
    whose [total] is a number other than NaN, the total becomes that
    number, both lists stay as they were, and beside the total only the
    error (cleared), the loading flag and the filter dialog (closed)
    change. *)
Theorem getTotalForDateRange_spec (net : Network) (st : State) :
  (filterStartDate st = "" \/ filterEndDate st = "" ->
   run (fun cl => getTotalForDateRange cl net) st
   = setError (Some "Please select both start and end dates") st)
  /\ (forall status data total,
        filterStartDate st <> "" -> filterEndDate st <> "" ->
        net {| path := "/api/expenses/total";
               params := [("start", filterStartDate st);
                          ("end", filterEndDate st)] |}
          = HttpResponse status (Some data) ->
        ok status = true ->
        get "total" data = Some (VNum total) ->
        PrimFloat.is_nan total = false ->
        let st' := run (fun cl => getTotalForDateRange cl net) st in
        totalAmount st' = total
        /\ filteredExpenses st' = filteredExpenses st
        /\ expenses st' = expenses st
        /\ st' = {| expenses := expenses st;
                    filteredExpenses := filteredExpenses st;
                    loading := false;
                    error := None;
                    totalAmount := total;
                    amount := amount st;
                    category := category st;
                    date := date st;
                    description := description st;
                    filterCategory := filterCategory st;
                    filterDate := filterDate st;
                    filterStartDate := filterStartDate st;
                    filterEndDate := filterEndDate st;
                    showAddModal := showAddModal st;
                    showFilterModal := false |}).
Proof.
  split.
  - intros H. unfold run, getTotalForDateRange, empty.
    destruct H as [H|H]; rewrite H; simpl; rewrite ?orb_true_r; reflexivity.
  - intros status data total Ns Ne Hnet Hok Htotal Hnan st'.
    assert (E : st' = setLoading false
                        (setShowFilterModal false
                           (setTotalAmount total
                              (setError None (setLoading true st))))).
    { subst st'. unfold run, getTotalForDateRange, empty, seq.
      apply String.eqb_neq in Ns, Ne. rewrite Ns, Ne, Hnet. simpl.
      now rewrite Hok, Htotal, Hnan. }
    rewrite E. repeat split.
Qed.

(** C7.  Reset filter, in every state: the filtered list becomes the full
    list, the total the sum of the amounts of the full list, the four
    filter fields are cleared, and the full list stays as it was. *)
Theorem resetFilters_spec (st : State) :
  let st' := run resetFilters st in
  filteredExpenses st' = expenses st
  /\ totalAmount st' = sum_numbers (map amount_of (expenses st))
  /\ filterCategory st' = "" /\ filterDate st' = ""
  /\ filterStartDate st' = "" /\ filterEndDate st' = ""
  /\ expenses st' = expenses st.
Proof.
  unfold run, resetFilters, seq. simpl.
  repeat split. apply fold_left_add_map.
Qed.

(** C10.  Apply filter, when the request fails (the network fails, the
    status is not 2xx, or the body is not an array): the filtered list
    becomes empty and the total 0, the error message is set, and the
    full list stays as it was. *)
Theorem applyFilters_failure (net : Network) (st : State) :
  let r := net {| path := "/api/expenses"; params := filterParams st |} in
  r = NetworkError
  \/ (exists status json, r = HttpResponse status json /\ ok status = false)
  \/ (exists status json,
        r = HttpResponse status json
        /\ forall data, json <> Some (VArr data)) ->
  let st' := run (fun cl => applyFilters cl net) st in
  filteredExpenses st' = []
  /\ totalAmount st' = 0%float
  /\ error st' = Some "Error applying filters. Please try again."
  /\ loading st' = false
  /\ expenses st' = expenses st.
Proof.
  intros r Hfail st'.
  assert (Hreq : forall data, apiRequest r <> Some (VArr data)).
  { intros data. destruct Hfail as [H|[(s & j & H & Hok)|(s & j & H & Hj)]];
      rewrite H; simpl; [discriminate | now rewrite Hok |].
    destruct (ok s); [apply Hj | discriminate]. }
  assert (E : st' = setLoading false
                      (setTotalAmount 0%float
                         (setFilteredExpenses []
                            (setError
                               (Some "Error applying filters. Please try again.")
                               (setError None (setLoading true st)))))).
  { subst st'. unfold run, applyFilters, seq. fold r.
    destruct (apiRequest r) as [v|]; [|reflexivity].
    destruct v as [| | | |data|]; try reflexivity. now destruct (Hreq data). }
  rewrite E. repeat split.
Qed.

End ClientFacts.

(* ================================================================= *)
(** ** Closed examples *)

Section Examples.
Import Sample.

Local Abbreviation post_expenses :=
  (Server.post_expenses js_Number js_String toISOString).
Local Abbreviation doc_json := (Server.doc_json toISOString).
Local Abbreviation get_expenses := (Server.get_expenses toISOString).
Local Abbreviation get_by_category := (Server.get_by_category store_sum).

(** POST with amount 0, category "Food" and date "2025-01-15": all three
    fields are present, and the answer is 400 with nothing stored. *)
Lemma post_zero_amount_rejected :
  get "amount" (food_body 0%float) = Some (VNum 0%float)
  /\ get "category" (food_body 0%float) = Some (VStr "Food")
  /\ get "date" (food_body 0%float) = Some (VStr "2025-01-15")
  /\ post_expenses env1 (food_body 0%float) []
     = ([], {| Server.status := 400;
               Server.body :=
                 Server.message "Please provide amount, category, and date" |}).
Proof. repeat split. Qed.

Lemma post_expenses_spec_witness :
  (exists doc,
     post_expenses env1 (food_body 45.99%float) []
     = ([] ++ [doc], {| Server.status := 201; Server.body := doc_json doc |})
     /\ get "_id" (doc_json doc) = Some (VStr (Server.oid env1))
     /\ Server.amount doc = 45.99%float
     /\ Server.category doc = "Food" /\ Server.date doc = "2025-01-15")
  /\ (exists doc,
        post_expenses env1 (food_body (-3)%float) []
        = ([] ++ [doc], {| Server.status := 201; Server.body := doc_json doc |})
        /\ get "_id" (doc_json doc) = Some (VStr (Server.oid env1))
        /\ Server.amount doc = (-3)%float
        /\ Server.category doc = "Food" /\ Server.date doc = "2025-01-15")
  /\ post_expenses env1 (VObj [("amount", VNum 45.99%float)]) [food]
     = ([food], {| Server.status := 400;
                   Server.body :=
                     Server.message "Please provide amount, category, and date" |}).
Proof.
  split; [|split].
  - apply (proj1 (proj2 (post_expenses_spec js_Number js_String toISOString
                           env1 (food_body 45.99%float) [])));
      try reflexivity; try discriminate; left; reflexivity.
  - apply (proj1 (proj2 (post_expenses_spec js_Number js_String toISOString
                           env1 (food_body (-3)%float) [])));
      try reflexivity; try discriminate; [right | left]; reflexivity.
  - apply (proj1 (post_expenses_spec js_Number js_String toISOString
                    env1 (VObj [("amount", VNum 45.99%float)]) [food])).
    right; left; reflexivity.
Defined.

Lemma post_expenses_empty_string_witness :
  post_expenses env1
    (VObj [("amount", VNum 45.99%float); ("category", VStr "");
           ("date", VStr "2025-01-15")]) [food]
  = ([food], {| Server.status := 400;
                Server.body :=
                  Server.message "Please provide amount, category, and date" |})
  /\ exists doc,
       fst (post_expenses env2 transportation_body [food]) = [food] ++ [doc]
       /\ snd (post_expenses env2 transportation_body [food])
          = {| Server.status := 201; Server.body := doc_json doc |}
       /\ Server.category doc <> "" /\ Server.date doc <> "".
Proof.
  split.
  - apply (proj1 (post_expenses_empty_string js_Number js_String toISOString
                    env1 _ [food])).
    left; reflexivity.
  - apply (proj2 (post_expenses_empty_string js_Number js_String toISOString
                    env2 transportation_body [food])); reflexivity.
Defined.

(** GET /api/expenses?category= on the store holding the Food record:
    the parameter is supplied, its value is the empty string, and the
    answer holds the Food record, whose category is not that value.
    GET /api/expenses?category=Other&category=Food on the same store:
    the answer holds the Food record, whose category is not "Other". *)
Lemma get_expenses_not_exact_match :
  (Server.q_category (by_category (Server.PStr "")) = Some (Server.PStr "")
   /\ get_expenses (by_category (Server.PStr "")) [food]
      = {| Server.status := 200; Server.body := VArr [doc_json food] |}
   /\ Server.category food <> "")
  /\ (get_expenses (by_category (Server.PArr ["Other"; "Food"])) [food]
      = {| Server.status := 200; Server.body := VArr [doc_json food] |}
      /\ Server.category food <> "Other").
Proof. repeat split; discriminate. Qed.

Lemma get_expenses_spec_witness :
  (exists l,
     get_expenses (by_category (Server.PStr "Food"))
       [transportation; food; transportation]
     = {| Server.status := 200; Server.body := VArr (map doc_json l) |}
     /\ Permutation l [food])
  /\ (exists l,
        get_expenses (by_category (Server.PArr ["Other"; "Food"]))
          [transportation; food; transportation]
        = {| Server.status := 200; Server.body := VArr (map doc_json l) |}
        /\ Permutation l [food]).
Proof.
  split.
  - destruct (get_expenses_spec toISOString (by_category (Server.PStr "Food"))
                [transportation; food; transportation]) as (l & H1 & H2 & _).
    exists l. split; [exact H1 | exact H2].
  - destruct (get_expenses_spec toISOString
                (by_category (Server.PArr ["Other"; "Food"]))
                [transportation; food; transportation]) as (l & H1 & H2 & _).
    exists l. split; [exact H1 | exact H2].
Defined.

(** GET /api/expenses/total?start=&end=2025-01-15 on the store of the
    two records: both parameters are supplied, both records have a date
    between the bounds, and the answer is 400.
    GET /api/expenses/total?start=2025-01-14&start=2025-01-15&end=2025-01-15:
    both parameters are supplied, and the answer is 500. *)
Lemma get_total_supplied_bounds_refused :
  (let q := (bounds (Some (Server.PStr "")) (Some (Server.PStr "2025-01-15"))) in
   Server.q_start q = Some (Server.PStr "")
   /\ Server.q_end q = Some (Server.PStr "2025-01-15")
   /\ filter (fun d => String.leb "" (Server.date d)
                       && String.leb (Server.date d) "2025-01-15")
             [food; transportation] = [food; transportation]
   /\ Server.get_total q [food; transportation]
      = {| Server.status := 400;
           Server.body := Server.message "Please provide start and end dates" |})
  /\ (let q := (bounds (Some (Server.PArr ["2025-01-14"; "2025-01-15"])) (Some (Server.PStr "2025-01-15"))) in
      Server.get_total q [food; transportation]
      = {| Server.status := 500;
           Server.body := Server.message "Server error" |}).
Proof. repeat split. Qed.

Lemma get_total_spec_witness :
  Server.get_total (bounds (Some (Server.PStr "2025-01-15")) (Some (Server.PStr "2025-01-31")))
    [food; transportation]
  = {| Server.status := 200;
       Server.body := VObj [("total", VNum 45.99%float)] |}
  /\ Server.get_total (bounds None (Some (Server.PStr "2025-01-31"))) [food; transportation]
     = {| Server.status := 400;
          Server.body := Server.message "Please provide start and end dates" |}
  /\ Server.get_total (bounds (Some (Server.PStr "2025-01-15")) (Some (Server.PArr ["2025-01-20"; "2025-01-31"])))
       [food; transportation]
     = {| Server.status := 500; Server.body := Server.message "Server error" |}.
Proof.
  split; [|split].
  - apply (proj1 (proj2 (get_total_spec
                    (bounds (Some (Server.PStr "2025-01-15")) (Some (Server.PStr "2025-01-31")))
                    [food; transportation])) "2025-01-15" "2025-01-31");
      try reflexivity; discriminate.
  - apply (proj1 (get_total_spec (bounds None (Some (Server.PStr "2025-01-31")))
                    [food; transportation])).
    left; reflexivity.
  - apply (proj2 (proj2 (get_total_spec
                    (bounds (Some (Server.PStr "2025-01-15")) (Some (Server.PArr ["2025-01-20"; "2025-01-31"])))
                    [food; transportation]))); try reflexivity.
    right. eexists. reflexivity.
Defined.


(** Load of an array whose one element has amount 5, category " " (a
    string that is not empty) and date "2025-01-15": nothing is kept. *)
Lemma fetchExpenses_drops_blank_category :
  get "amount" blank_category = Some (VNum 5%float)
  /\ PrimFloat.is_nan 5%float = false /\ PrimFloat.ltb 0%float 5%float = true
  /\ get "category" blank_category = Some (VStr " ") /\ " " <> ""
  /\ get "date" blank_category = Some (VStr "2025-01-15")
  /\ get "description" blank_category = None
  /\ Client.expenses
       (Client.fetchExpenses (answers 200 (VArr [blank_category])) initial) = []
  /\ Client.filteredExpenses
       (Client.fetchExpenses (answers 200 (VArr [blank_category])) initial) = [].
Proof. repeat split. discriminate. Qed.

Lemma fetchExpenses_spec_witness :
  let data := [abc_amount; food_body 45.99%float; VNull; transportation_body] in
  let st' := Client.fetchExpenses (answers 200 (VArr data)) initial in
  Client.expenses st' = [food_body 45.99%float; transportation_body]
  /\ Client.filteredExpenses st' = [food_body 45.99%float; transportation_body]
  /\ Client.totalAmount st' = 58.49%float.
Proof.
  intros data st'.
  destruct (fetchExpenses_spec (answers 200 (VArr data)) initial 200 data
              eq_refl eq_refl) as (H1 & H2 & H3 & _).
  split; [exact H1 | split; [exact H2 | exact H3]].
Defined.

Lemma getTotalForDateRange_spec_witness :
  Client.run (fun cl => Client.getTotalForDateRange cl unreachable) initial
  = Client.setError (Some "Please select both start and end dates") initial
  /\ let st' := Client.run
                  (fun cl => Client.getTotalForDateRange cl
                     (answers 200 (VObj [("total", VNum 58.49%float)]))) loaded in
     Client.totalAmount st' = 58.49%float
     /\ Client.filteredExpenses st' = [food_body 45.99%float]
     /\ Client.expenses st' = [food_body 45.99%float; transportation_body].
Proof.
  split.
  - apply (proj1 (getTotalForDateRange_spec unreachable initial)).
    left; reflexivity.
  - intros st'.
    destruct (proj2 (getTotalForDateRange_spec
                       (answers 200 (VObj [("total", VNum 58.49%float)])) loaded)
                200 (VObj [("total", VNum 58.49%float)]) 58.49%float)
      as (H1 & H2 & H3 & _); try reflexivity; try discriminate.
    split; [exact H1 | split; [exact H2 | exact H3]].
Defined.

Lemma applyFilters_failure_witness :
  let failed (st' : Client.State) :=
    Client.filteredExpenses st' = []
    /\ Client.totalAmount st' = 0%float
    /\ Client.error st' = Some "Error applying filters. Please try again."
    /\ Client.loading st' = false
    /\ Client.expenses st' = [food_body 45.99%float; transportation_body] in
  failed (Client.run (fun cl => Client.applyFilters cl unreachable) loaded)
  /\ failed (Client.run (fun cl => Client.applyFilters cl
                           (answers 500 (VObj [("message", VStr "Server error")])))
               loaded)
  /\ failed (Client.run (fun cl => Client.applyFilters cl
                           (answers 200 (VObj [("total", VNum 58.49%float)])))
               loaded).
Proof.
  intros failed. split; [|split].
  - apply (applyFilters_failure unreachable loaded). left; reflexivity.
  - apply (applyFilters_failure
             (answers 500 (VObj [("message", VStr "Server error")])) loaded).
    right; left. eexists _, _. split; reflexivity.
  - apply (applyFilters_failure
             (answers 200 (VObj [("total", VNum 58.49%float)])) loaded).
    right; right. eexists _, _. split; [reflexivity | discriminate].
Defined.

End Examples.

(* ================================================================= *)
(** * Further properties *)

From Stdlib Require OrderedTypeEx.

(** ** The order on strings is transitive *)

Lemma str_leb_iff (s t : string) :
  str_leb s t = true <-> s = t \/ OrderedTypeEx.String_as_OT.lt s t.
Proof.
  unfold str_leb, String.leb.
  change (String.compare s t) with (OrderedTypeEx.String_as_OT.cmp s t).
  destruct (OrderedTypeEx.String_as_OT.cmp s t) eqn:E.
  - apply OrderedTypeEx.String_as_OT.cmp_eq in E. tauto.
  - apply OrderedTypeEx.String_as_OT.cmp_lt in E. tauto.
  - split; [discriminate|]. intros [H|H].
    + apply OrderedTypeEx.String_as_OT.cmp_eq in H. congruence.
    + apply OrderedTypeEx.String_as_OT.cmp_lt in H. congruence.
Qed.

Lemma str_leb_trans (s t u : string) :
  str_leb s t = true -> str_leb t u = true -> str_leb s u = true.
Proof.
  rewrite !str_leb_iff. intros [->|H1] [->|H2]; auto.
  right. eapply OrderedTypeEx.String_as_OT.lt_trans; eassumption.
Qed.

Lemma str_leb_refl (s : string) : str_leb s s = true.
Proof. apply str_leb_iff. now left. Qed.

Section ServerMore.
Import Server.

Variable js_Number : string -> float.
Variable js_String : float -> string.
Variable toISOString : Z -> string.
Variable store_sum : list float -> float.

Local Abbreviation get_by_category := (Server.get_by_category store_sum).
Local Abbreviation group_by_category := (Server.group_by_category store_sum).
Local Abbreviation post_expenses :=
  (Server.post_expenses js_Number js_String toISOString).
Local Abbreviation save := (Server.save js_Number js_String).
Local Abbreviation castNumber := (Server.castNumber js_Number).
Local Abbreviation castString := (Server.castString js_String).
Local Abbreviation doc_json := (Server.doc_json toISOString).
Local Abbreviation get_expenses := (Server.get_expenses toISOString).
Local Abbreviation post_all :=
  (History.post_all js_Number js_String toISOString).

(* ----------------------------------------------------------------- *)
(** *** What a POST does to the store *)

Lemma castNumber_not_nan v a :
  requiredNumber (castNumber v) = Some a -> PrimFloat.is_nan a = false.
Proof.
  unfold Server.castNumber. cbv zeta.
  match goal with
  | |- requiredNumber (match ?val with _ => _ end) = _ -> _ =>
      destruct val as [[| b | x | s | l | p]|]
  end; simpl; try discriminate.
  - destruct b; intros H; inversion H; reflexivity.
  - destruct (PrimFloat.is_nan x) eqn:E; simpl; [discriminate|].
    intros H; inversion H; subst. exact E.
  - destruct (String.eqb s ""); simpl; [discriminate|].
    destruct (PrimFloat.is_nan (js_Number s)) eqn:E; simpl; [discriminate|].
    intros H; inversion H; subst. exact E.
Qed.

Lemma save_Some env a c d s doc :
  save env a c d s = Some doc ->
  _id doc = oid env /\ createdAt doc = now env
  /\ History.well_formed doc.
Proof.
  unfold Server.save, History.well_formed.
  destruct (requiredNumber (castNumber a)) as [x|] eqn:Ea; [|discriminate].
  destruct (requiredString (castString c)) as [y|] eqn:Ec; [|discriminate].
  destruct (requiredString (castString d)) as [z|] eqn:Ed; [|discriminate].
  apply castNumber_not_nan in Ea.
  apply requiredString_nonempty in Ec, Ed.
  destruct (castString s); intros H; inversion H; subst; simpl; tauto.
Qed.

(** X1.  POST /api/expenses answers 400, 500 or 201.  With 400 or 500
    the store is the one it was; with 201 one record is appended after
    the records already stored, which stay as they were, and the record
    carries the identifier and the time that the driver supplied, a
    number other than NaN as amount and a non-empty category and date. *)
Theorem post_expenses_outcomes (env : Env) (req_body : value) (db : Store) :
  exists db' r,
    post_expenses env req_body db = (db', r)
    /\ ((status r = 400 /\ db' = db)
        \/ (status r = 500 /\ db' = db)
        \/ (status r = 201
            /\ exists doc,
                 db' = db ++ [doc] /\ body r = doc_json doc
                 /\ _id doc = oid env /\ createdAt doc = now env
                 /\ History.well_formed doc)).
Proof.
  unfold Server.post_expenses.
  destruct (negb _ || negb _ || negb _).
  - eexists _, _. split; [reflexivity|]. left. split; reflexivity.
  - destruct (save env _ _ _ _) as [doc|] eqn:E.
    + eexists _, _. split; [reflexivity|]. right; right.
      split; [reflexivity|]. exists doc.
      apply save_Some in E. simpl. tauto.
    + eexists _, _. split; [reflexivity|]. right; left. split; reflexivity.
Qed.

Lemma post_fst_cases env req_body db :
  fst (post_expenses env req_body db) = db
  \/ exists doc, fst (post_expenses env req_body db) = db ++ [doc]
                 /\ History.well_formed doc.
Proof.
  unfold Server.post_expenses.
  destruct (negb _ || negb _ || negb _); [now left|].
  destruct (save env _ _ _ _) as [doc|] eqn:E; [|now left].
  right. exists doc. apply save_Some in E. simpl. tauto.
Qed.

(** X2.  A series of POST requests, whatever their bodies, only appends
    to the store: the records it held stay first, in place; and if they
    all had an amount other than NaN and a non-empty category and date,
    so has every record afterwards. *)
Theorem post_all_invariant (requests : list (Env * value)) (db : Store) :
  exists added,
    post_all requests db = db ++ added
    /\ List.length added <= List.length requests
    /\ (Forall History.well_formed db ->
        Forall History.well_formed (post_all requests db)).
Proof.
  revert db. induction requests as [|[env req_body] rest IH]; intros db.
  - exists []. simpl. rewrite app_nil_r. auto.
  - simpl. destruct (IH (fst (post_expenses env req_body db)))
      as (added & E & L & W).
    destruct (post_fst_cases env req_body db) as [H|(doc & H & Wd)].
    + rewrite H in *. exists added. repeat split; auto.
    + rewrite H in *. exists (doc :: added). repeat split.
      * now rewrite E, <- app_assoc.
      * simpl. lia.
      * intros Hdb. apply W. apply Forall_app. split; auto.
Qed.

(* ----------------------------------------------------------------- *)
(** *** A created record in the answers that follow *)

(** X3.  After a POST answered 201, the created record is in the answer
    of GET /api/expenses for every query, of strings or lists of
    strings, that it matches: each of category and date is absent,
    empty, equal to its value, or a list that holds its value; and with
    no parameter the answer has one record more than the store had. *)
Theorem post_then_listed (env : Env) (req_body : value) (db db' : Store)
    (r : Response) (q : QueryString) :
  post_expenses env req_body db = (db', r) -> status r = 201 ->
  exists doc items,
    body r = doc_json doc
    /\ body (get_expenses q db') = VArr items
    /\ ((forall c, q_category q = Some (PStr c) -> c <> "" ->
                    category doc = c) ->
        (forall cs, q_category q = Some (PArr cs) ->
                    In (category doc) cs) ->
        (forall x, q_date q = Some (PStr x) -> x <> "" ->
                   date doc = x) ->
        (forall xs, q_date q = Some (PArr xs) -> In (date doc) xs) ->
        In (doc_json doc) items)
    /\ (q_category q = None -> q_date q = None ->
        List.length items = S (List.length db)).
Proof.
  intros Hpost H201.
  destruct (post_201_inv js_Number js_String toISOString _ _ _ _ _ Hpost H201)
    as (doc & -> & -> & _).
  set (keep := fun d => selects (q_category q) (category d)
                        && selects (q_date q) (date d)).
  exists doc, (map doc_json (sort_date_desc (filter keep (db ++ [doc])))).
  split; [reflexivity|]. split; [now rewrite get_expenses_eq|].
  assert (P := sort_desc_perm date_ge (filter keep (db ++ [doc]))).
  split.
  - intros Hc Hcs Hd Hds. apply in_map. unfold sort_date_desc.
    apply (Permutation_in _ (Permutation_sym P)), filter_In.
    split; [apply in_app_iff; right; now left|].
    unfold keep. apply andb_true_iff. split; apply selects_spec; auto.
  - intros Hc Hd. rewrite length_map. unfold sort_date_desc.
    rewrite (Permutation_length P). unfold keep. rewrite Hc, Hd. simpl.
    replace (filter (fun _ => true) (db ++ [doc])) with (db ++ [doc]).
    + rewrite length_app. simpl. lia.
    + clear. induction (db ++ [doc]) as [|d l IH]; simpl; congruence.
Qed.

(** X4.  After a POST answered 201, the range total of a request whose
    bounds are both non-empty strings is the total before plus the
    amount of the created record when its date lies within the bounds,
    and the total before otherwise. *)
Theorem post_then_total (env : Env) (req_body : value) (db db' : Store)
    (r : Response) (q : QueryString) (s e : string) :
  post_expenses env req_body db = (db', r) -> status r = 201 ->
  q_start q = Some (PStr s) -> s <> "" ->
  q_end q = Some (PStr e) -> e <> "" ->
  exists doc t,
    body r = doc_json doc
    /\ get_total q db
       = {| status := 200; body := VObj [("total", VNum t)] |}
    /\ get_total q db'
       = {| status := 200;
            body := VObj [("total",
                      VNum (if String.leb s (date doc) && String.leb (date doc) e
                            then PrimFloat.add t (amount doc) else t))] |}.
Proof.
  intros Hpost H201 Hs Ns He Ne.
  destruct (post_201_inv js_Number js_String toISOString _ _ _ _ _ Hpost H201)
    as (doc & -> & -> & _).
  exists doc. eexists. split; [reflexivity|].
  rewrite !(get_total_ok q _ s e Hs Ns He Ne). split; [reflexivity|].
  rewrite filter_app. cbn [filter].
  destruct (String.leb s (date doc) && String.leb (date doc) e).
  - rewrite map_app. cbn [map]. now rewrite sum_numbers_snoc.
  - now rewrite app_nil_r.
Qed.

(* ----------------------------------------------------------------- *)
(** *** Listing and range total at the edges *)

(** X5.  In the answer of GET /api/expenses every record comes before
    all the records of an earlier or equal date: the order holds between
    any two records of the answer, not only neighbours, and the first
    record has the latest date. *)
Theorem get_expenses_strongly_sorted (q : QueryString) (db : Store) :
  exists l,
    get_expenses q db = {| status := 200; body := VArr (map doc_json l) |}
    /\ StronglySorted (fun a b => String.leb (date b) (date a) = true) l
    /\ (forall d, In d l -> In d db)
    /\ (forall first rest, l = first :: rest ->
        forall d, In d l -> String.leb (date d) (date first) = true).
Proof.
  eexists. split; [apply get_expenses_eq|].
  match goal with |- StronglySorted _ ?l /\ _ => set (l0 := l) end.
  assert (SS : StronglySorted (fun a b => String.leb (date b) (date a) = true) l0).
  { apply Sorted_StronglySorted.
    - intros a b c Hab Hbc. exact (str_leb_trans _ _ _ Hbc Hab).
    - apply (sort_desc_sorted date_ge date_ge_total). }
  split; [exact SS|]. split.
  - intros d Hd. unfold l0, sort_date_desc in Hd.
    apply (Permutation_in _ (sort_desc_perm date_ge _)), filter_In in Hd. tauto.
  - intros first rest E d Hd. rewrite E in SS, Hd.
    apply StronglySorted_inv in SS. destruct SS as [_ HF].
    destruct Hd as [<-|Hd]; [apply str_leb_refl|].
    rewrite Forall_forall in HF. now apply HF.
Qed.

(** X6.  GET /api/expenses/total with both bounds given once, as
    strings, and the end before the start is no error: the answer is 200
    with total 0, whatever the store holds. *)
Theorem get_total_inverted_bounds (q : QueryString) (db : Store) (s e : string) :
  q_start q = Some (PStr s) -> q_end q = Some (PStr e) ->
  e <> "" ->
  String.ltb e s = true ->
  get_total q db
  = {| status := 200; body := VObj [("total", VNum 0%float)] |}.
Proof.
  intros Hs He Ne Hlt.
  assert (Hes : String.leb s e = false).
  { unfold String.ltb in Hlt. unfold String.leb.
    rewrite String.compare_antisym.
    destruct (String.compare e s); simpl; congruence. }
  assert (Ns : s <> "").
  { intros ->. destruct e; [contradiction | discriminate]. }
  rewrite (get_total_ok q db s e Hs Ns He Ne).
  replace (filter _ db) with (@nil ExpenseDoc); [reflexivity|].
  symmetry. induction db as [|d db IH]; simpl; [reflexivity|].
  destruct (String.leb s (date d)) eqn:E1; simpl; [|exact IH].
  destruct (String.leb (date d) e) eqn:E2; simpl; [|exact IH].
  pose proof (str_leb_trans _ _ _ E1 E2) as H. unfold str_leb in H. congruence.
Qed.

(** X7.  GET /api/expenses/total with start and end given once and
    equal to one date sums the records of exactly that date, the ones
    that the date filter of GET /api/expenses selects. *)
Theorem get_total_single_date (q : QueryString) (db : Store) (d : string) :
  q_start q = Some (PStr d) -> q_end q = Some (PStr d) ->
  d <> "" ->
  get_total q db
  = {| status := 200;
       body := VObj [("total",
                 VNum (sum_numbers
                         (map amount
                            (filter (fun x => String.eqb (date x) d) db))))] |}.
Proof.
  intros Hs He Nd. rewrite (get_total_ok q db d d Hs Nd He Nd).
  do 7 f_equal. apply filter_ext. intros x.
  destruct (String.eqb (date x) d) eqn:E.
  - apply String.eqb_eq in E. rewrite E.
    change (String.leb d d) with (str_leb d d). now rewrite str_leb_refl.
  - destruct (String.leb d (date x)) eqn:E1; [|reflexivity].
    destruct (String.leb (date x) d) eqn:E2; [|reflexivity].
    apply String.eqb_neq in E. exfalso. apply E.
    now apply String.leb_antisym.
Qed.

(* ----------------------------------------------------------------- *)
(** *** The counts of the aggregation *)

Lemma group_add_count_sum d bs :
  list_sum (map bucket_count (group_add d bs))
  = S (list_sum (map bucket_count bs)).
Proof.
  induction bs as [|b bs IH]; simpl; [reflexivity|].
  destruct (String.eqb (bucket_id b) (category d)); simpl; [reflexivity|].
  rewrite IH. lia.
Qed.

Lemma group_add_count_pos d bs :
  Forall (fun b => 1 <= bucket_count b) bs ->
  Forall (fun b => 1 <= bucket_count b) (group_add d bs).
Proof.
  induction 1 as [|b bs Hb Hbs IH]; simpl.
  - repeat constructor.
  - destruct (String.eqb (bucket_id b) (category d)); constructor; simpl;
      auto; lia.
Qed.

Lemma buckets_counts db :
  list_sum (map bucket_count (buckets db)) = List.length db
  /\ Forall (fun b => 1 <= bucket_count b) (buckets db).
Proof.
  unfold buckets. induction db as [|d db IH] using rev_ind.
  - simpl. auto.
  - rewrite fold_left_app, length_app. simpl. destruct IH as [IH1 IH2].
    split; [rewrite group_add_count_sum, IH1; lia|].
    now apply group_add_count_pos.
Qed.

Lemma group_by_category_counts db :
  list_sum (map group_count (group_by_category db)) = List.length db
  /\ Forall (fun g => 1 <= group_count g) (group_by_category db).
Proof.
  destruct (buckets_counts db) as [H1 H2].
  unfold Server.group_by_category. rewrite map_map. simpl. split; [exact H1|].
  apply Forall_map. simpl. exact H2.
Qed.

Lemma list_sum_perm (l l' : list nat) :
  Permutation l l' -> list_sum l = list_sum l'.
Proof. induction 1; simpl; lia. Qed.

(** X8.  In the answer of GET /api/expenses/by-category the counts of
    the entries add up to the number of stored records, every entry
    counts at least one record, and there are no more entries than
    records; so an empty store gives an empty array. *)
Theorem get_by_category_counts (db : Store) :
  exists gs,
    get_by_category db = {| status := 200; body := VArr (map group_json gs) |}
    /\ list_sum (map group_count gs) = List.length db
    /\ Forall (fun g => 1 <= group_count g) gs
    /\ List.length gs <= List.length db.
Proof.
  exists (sort_total_desc (group_by_category db)).
  destruct (group_by_category_counts db) as [Hsum Hpos].
  assert (P := sort_desc_perm total_ge (group_by_category db)).
  split; [reflexivity|].
  assert (S1 : list_sum (map group_count (sort_total_desc (group_by_category db)))
               = List.length db).
  { rewrite <- Hsum. apply list_sum_perm, Permutation_map, P. }
  assert (F1 : Forall (fun g => 1 <= group_count g)
                 (sort_total_desc (group_by_category db))).
  { rewrite Forall_forall in *. intros g Hg. apply Hpos.
    now apply (Permutation_in _ P). }
  split; [exact S1|]. split; [exact F1|].
  rewrite <- S1. clear - F1.
  induction F1 as [|g gs Hg _ IH]; simpl; lia.
Qed.

End ServerMore.

(* ----------------------------------------------------------------- *)
(** *** Seeding *)

Section SeedFacts.
Import Server.

Variable js_Number : string -> float.
Variable js_String : float -> string.

Local Abbreviation seedInitialData :=
  (Startup.seedInitialData js_Number js_String).

(** X9.  [seedInitialData] inserts the seven samples into an empty
    store, each with an amount other than NaN and a non-empty category
    and date, and leaves a store that holds a record as it is; so a
    second run, after a restart, adds nothing. *)
Theorem seedInitialData_once (fresh fresh' : nat -> Env) (db : Store) :
  (db <> [] -> seedInitialData fresh db = db)
  /\ List.length (seedInitialData fresh []) = 7
  /\ map category (seedInitialData fresh [])
     = ["Food"; "Transportation"; "Housing"; "Entertainment"; "Utilities";
        "Healthcare"; "Shopping"]
  /\ Forall History.well_formed (seedInitialData fresh [])
  /\ seedInitialData fresh' (seedInitialData fresh db)
     = seedInitialData fresh db.
Proof.
  assert (Hne : forall f d, d <> [] -> seedInitialData f d = d).
  { intros f d Hd. unfold Startup.seedInitialData.
    destruct d; [contradiction | reflexivity]. }
  split; [apply Hne|]. split; [reflexivity|]. split; [reflexivity|].
  split.
  - repeat constructor; simpl; discriminate.
  - destruct db as [|d db].
    + apply Hne. discriminate.
    + rewrite (Hne fresh (d :: db)) by discriminate.
      apply Hne. discriminate.
Qed.

End SeedFacts.

(* ================================================================= *)
(** ** The client, further *)

Section ClientMore.
Import Client ClientForm.

(** A request that [apiRequest] does not answer with a body: the network
    fails, the status is not 2xx, or the body is not JSON. *)
Lemma apiRequest_None (r : FetchResult) :
  r = NetworkError
  \/ (exists status json, r = HttpResponse status json /\ ok status = false)
  \/ (exists status, r = HttpResponse status None) ->
  apiRequest r = None.
Proof.
  intros [->|[(s & j & -> & H)|(s & ->)]]; simpl;
    [reflexivity | now rewrite H | now destruct (ok s)].
Qed.

(** X10.  Apply filter, when the answer is 2xx with an array: the
    filtered list becomes the elements of the array that pass the shape
    check and the total the sum of their amounts; the error is cleared,
    the filter dialog closed, and the full list, the form and the filter
    fields stay as they were. *)
Theorem applyFilters_success (net : Network) (st : State) (status : nat)
    (data : list value) :
  net {| path := "/api/expenses"; params := filterParams st |}
    = HttpResponse status (Some (VArr data)) ->
  ok status = true ->
  run (fun cl => applyFilters cl net) st
  = {| expenses := expenses st;
       filteredExpenses := filter isValidExpense data;
       loading := false;
       error := None;
       totalAmount := sum_numbers (map amount_of (filter isValidExpense data));
       amount := amount st;
       category := category st;
       date := date st;
       description := description st;
       filterCategory := filterCategory st;
       filterDate := filterDate st;
       filterStartDate := filterStartDate st;
       filterEndDate := filterEndDate st;
       showAddModal := showAddModal st;
       showFilterModal := false |}.
Proof.
  intros Hnet Hok. unfold run, applyFilters, seq. rewrite Hnet. simpl.
  rewrite Hok. unfold calculateTotal, setTotalAmount, sum_numbers. simpl.
  now rewrite fold_left_add_map.
Qed.

(** X11.  Load, when the request fails or the body is not an array: both
    lists become empty, the full one too, the total becomes 0 and the
    error message is set; nothing else changes but the loading flag. *)
Theorem fetchExpenses_failure (net : Network) (st : State) :
  (forall data,
     apiRequest (net {| path := "/api/expenses"; params := [] |})
     <> Some (VArr data)) ->
  fetchExpenses net st
  = {| expenses := [];
       filteredExpenses := [];
       loading := false;
       error := Some "Error fetching expenses. Please try again later.";
       totalAmount := 0%float;
       amount := amount st;
       category := category st;
       date := date st;
       description := description st;
       filterCategory := filterCategory st;
       filterDate := filterDate st;
       filterStartDate := filterStartDate st;
       filterEndDate := filterEndDate st;
       showAddModal := showAddModal st;
       showFilterModal := showFilterModal st |}.
Proof.
  intros H. unfold fetchExpenses, seq.
  destruct (apiRequest _) as [v|]; [|reflexivity].
  destruct v as [| | | |data|]; try reflexivity. now destruct (H data).
Qed.

(** X12.  Compute range total, with both fields filled in, when the
    request fails or the answer has no [total] that is a number other
    than NaN: the total becomes 0 and the error message is set, while
    both lists and the filter dialog stay as they were. *)
Theorem getTotalForDateRange_failure (net : Network) (st : State) :
  filterStartDate st <> "" -> filterEndDate st <> "" ->
  (forall data total,
     apiRequest (net {| path := "/api/expenses/total";
                        params := [("start", filterStartDate st);
                                   ("end", filterEndDate st)] |})
     = Some data ->
     get "total" data = Some (VNum total) -> PrimFloat.is_nan total = true) ->
  run (fun cl => getTotalForDateRange cl net) st
  = {| expenses := expenses st;
       filteredExpenses := filteredExpenses st;
       loading := false;
       error := Some "Error fetching total. Please try again.";
       totalAmount := 0%float;
       amount := amount st;
       category := category st;
       date := date st;
       description := description st;
       filterCategory := filterCategory st;
       filterDate := filterDate st;
       filterStartDate := filterStartDate st;
       filterEndDate := filterEndDate st;
       showAddModal := showAddModal st;
       showFilterModal := showFilterModal st |}.
Proof.
  intros Ns Ne H. unfold run, getTotalForDateRange, empty, seq.
  apply String.eqb_neq in Ns, Ne. rewrite Ns, Ne. simpl.
  destruct (apiRequest _) as [data|]; [|reflexivity].
  specialize (H data).
  destruct (get "total" data) as [[| |t| | |]|]; try reflexivity.
  now rewrite (H t eq_refl eq_refl).
Qed.

(** X13.  Both lists only ever hold elements that pass the shape check:
    Load makes it so from any state, and Apply filter, Compute range
    total and Reset filter keep it so, whatever the network answers. *)
Theorem valid_lists_kept (net : Network) (st : State) :
  valid_lists (fetchExpenses net st)
  /\ (valid_lists st ->
      valid_lists (run (fun cl => applyFilters cl net) st)
      /\ valid_lists (run (fun cl => getTotalForDateRange cl net) st)
      /\ valid_lists (run resetFilters st)).
Proof.
  assert (F : forall data,
            Forall (fun e => isValidExpense e = true)
                   (filter isValidExpense data)).
  { intros data. apply Forall_forall. intros e He.
    now apply filter_In in He. }
  split.
  - unfold valid_lists, fetchExpenses, seq.
    destruct (apiRequest _) as [[| | | |data|]|]; simpl; auto.
  - intros [V1 V2]. repeat split.
    + unfold run, applyFilters, seq.
      destruct (apiRequest _) as [[| | | |data|]|]; simpl; auto.
    + unfold run, applyFilters, seq.
      destruct (apiRequest _) as [[| | | |data|]|]; simpl; auto.
    + unfold run, getTotalForDateRange, seq.
      destruct (empty _ || empty _); simpl; auto.
      destruct (apiRequest _) as [data|]; simpl; auto.
      destruct (get "total" data) as [[| |t| | |]|]; simpl; auto.
      destruct (PrimFloat.is_nan t); simpl; auto.
    + unfold run, getTotalForDateRange, seq.
      destruct (empty _ || empty _); simpl; auto.
      destruct (apiRequest _) as [data|]; simpl; auto.
      destruct (get "total" data) as [[| |t| | |]|]; simpl; auto.
      destruct (PrimFloat.is_nan t); simpl; auto.
    + exact V1.
    + exact V1.
Qed.

(** X14.  Apply filter with both filter fields empty sends the request
    of Load, with no parameter, and whatever the network answers it
    leaves the filtered list and the total that Load would; unlike Load
    it does not touch the full list. *)
Theorem applyFilters_no_filter (net : Network) (st : State) :
  filterCategory st = "" -> filterDate st = "" ->
  let st' := run (fun cl => applyFilters cl net) st in
  filterParams st = []
  /\ filteredExpenses st' = filteredExpenses (fetchExpenses net st)
  /\ totalAmount st' = totalAmount (fetchExpenses net st)
  /\ expenses st' = expenses st.
Proof.
  intros Hc Hd st'. subst st'.
  assert (P : filterParams st = [])
    by (unfold filterParams, empty; now rewrite Hc, Hd).
  unfold run, applyFilters, fetchExpenses, seq. rewrite P.
  split; [reflexivity|].
  destruct (apiRequest _) as [[| | | |data|]|]; simpl; auto.
Qed.

(** Every parameter that Apply filter sends is a filter field that is
    not empty. *)
Lemma filterParams_spec (st : State) (k v : string) :
  In (k, v) (filterParams st) <->
  (k = "category" /\ v = filterCategory st /\ v <> "")
  \/ (k = "date" /\ v = filterDate st /\ v <> "").
Proof.
  unfold filterParams, empty.
  destruct (String.eqb_spec (filterCategory st) "") as [Ec|Ec],
           (String.eqb_spec (filterDate st) "") as [Ed|Ed]; simpl; split;
    intros H;
    repeat match goal with
           | H : _ \/ _ |- _ => destruct H as [H|H]
           | H : _ /\ _ |- _ => destruct H as [? H]
           | H : (_, _) = (_, _) |- _ => inversion H; clear H
           | H : False |- _ => destruct H
           end; subst; try tauto; try congruence.
Qed.

(** X15.  Reset filter undoes a filter or a range total, whether the
    request succeeded or failed: afterwards the filtered list is the
    full list as it was before the operation, the total is the sum of
    its amounts, the filter fields are empty and no error is shown. *)
Theorem resetFilters_undoes (net : Network) (st : State) :
  let after st1 :=
    let st2 := run resetFilters st1 in
    expenses st2 = expenses st
    /\ filteredExpenses st2 = expenses st
    /\ totalAmount st2 = sum_numbers (map amount_of (expenses st))
    /\ filterCategory st2 = "" /\ filterDate st2 = ""
    /\ filterStartDate st2 = "" /\ filterEndDate st2 = ""
    /\ error st2 = None /\ showFilterModal st2 = false in
  after (run (fun cl => applyFilters cl net) st)
  /\ after (run (fun cl => getTotalForDateRange cl net) st).
Proof.
  assert (R : forall st1, expenses st1 = expenses st ->
    let st2 := run resetFilters st1 in
    expenses st2 = expenses st
    /\ filteredExpenses st2 = expenses st
    /\ totalAmount st2 = sum_numbers (map amount_of (expenses st))
    /\ filterCategory st2 = "" /\ filterDate st2 = ""
    /\ filterStartDate st2 = "" /\ filterEndDate st2 = ""
    /\ error st2 = None /\ showFilterModal st2 = false).
  { intros st1 E. unfold run, resetFilters, seq. simpl. rewrite E.
    repeat split. apply fold_left_add_map. }
  split; apply R.
  - unfold run, applyFilters, seq.
    destruct (apiRequest _) as [[| | | |data|]|]; reflexivity.
  - unfold run, getTotalForDateRange, seq.
    destruct (empty _ || empty _); [reflexivity|].
    destruct (apiRequest _) as [data|]; [|reflexivity].
    destruct (get "total" data) as [[| |t| | |]|]; try reflexivity.
    destruct (PrimFloat.is_nan t); reflexivity.
Qed.

End ClientMore.

(* ----------------------------------------------------------------- *)
(** *** [addExpense] *)

Lemma finite_not_nan (x : float) :
  PrimFloat.is_finite x = true -> PrimFloat.is_nan x = false.
Proof.
  unfold PrimFloat.is_finite. rewrite negb_true_iff, orb_false_iff. tauto.
Qed.

Lemma not_le_zero_positive (x : float) :
  PrimFloat.is_nan x = false -> PrimFloat.leb x 0 = false ->
  PrimFloat.ltb 0 x = true.
Proof.
  rewrite is_nan_spec, FloatAxioms.leb_spec, FloatAxioms.ltb_spec.
  rewrite negb_false_iff. intros Hx Hle.
  assert (H0 : SFeqb (Prim2SF 0) (Prim2SF 0) = true) by reflexivity.
  destruct (SFcompare_some _ _ Hx H0) as [c Hc].
  unfold SFleb in Hle. unfold SFltb.
  rewrite Hc in Hle. rewrite (SFcompare_antisym _ _ _ Hc).
  destruct c; simpl in *; congruence.
Qed.

Lemma zero_not_positive (x : float) :
  PrimFloat.is_zero x = true -> PrimFloat.ltb 0 x = false.
Proof.
  unfold PrimFloat.is_zero.
  change PrimFloat.zero with 0%float.
  rewrite FloatAxioms.eqb_spec, FloatAxioms.ltb_spec.
  unfold SFeqb, SFltb. intros H.
  destruct (SFcompare (Prim2SF x) (Prim2SF 0)) as [c|] eqn:Hc; [|discriminate].
  rewrite (SFcompare_antisym _ _ _ Hc). destruct c; simpl; congruence.
Qed.

Lemma positive_not_zero (x : float) :
  PrimFloat.ltb 0 x = true -> PrimFloat.is_zero x = false.
Proof.
  intros H. destruct (PrimFloat.is_zero x) eqn:E; [|reflexivity].
  apply zero_not_positive in E. congruence.
Qed.

Section AddFacts.
Import Client ClientForm.

Variable parseFloat : string -> float.
Variable today : string.

Local Abbreviation addExpense := (ClientForm.addExpense parseFloat today).

(** X16.  Add, when the form does not pass the checks of the client:
    with an empty amount, category or date the only change is the
    message to fill in the required fields; with these filled in and an
    amount that parses to NaN, to zero or below, the only change is the
    message to enter a valid amount.  In both cases the result is the
    same for every network: no request is made. *)
Theorem addExpense_form_errors (st : State) (post : value -> FetchResult)
    (net : Network) :
  (amount st = "" \/ category st = "" \/ date st = "" ->
   run (fun cl => addExpense cl post net) st
   = setError (Some "Please fill in all required fields") st)
  /\ (amount st <> "" -> category st <> "" -> date st <> "" ->
      PrimFloat.is_nan (parseFloat (amount st)) = true
      \/ PrimFloat.leb (parseFloat (amount st)) 0 = true ->
      run (fun cl => addExpense cl post net) st
      = setError (Some "Please enter a valid amount") st).
Proof.
  split.
  - intros H. unfold run, ClientForm.addExpense, seq, empty.
    destruct H as [H|[H|H]]; rewrite H; simpl; rewrite ?orb_true_r;
      reflexivity.
  - intros Na Nc Nd H. unfold run, ClientForm.addExpense, seq, empty.
    apply String.eqb_neq in Na, Nc, Nd. rewrite Na, Nc, Nd. simpl.
    destruct H as [H|H]; rewrite H; rewrite ?orb_true_r; reflexivity.
Qed.

(** X17.  Add, when the form passes the checks and the request fails
    (the network fails, the status is not 2xx, or the body is not JSON):
    the only change is the error message; the form keeps what was typed,
    the lists and the total stay as they were, and no reload is made. *)
Theorem addExpense_request_failure (st : State) (post : value -> FetchResult)
    (net : Network) :
  amount st <> "" -> category st <> "" -> date st <> "" ->
  PrimFloat.is_nan (parseFloat (amount st)) = false ->
  PrimFloat.leb (parseFloat (amount st)) 0 = false ->
  apiRequest (post (wire (newExpense (parseFloat (amount st)) st))) = None ->
  run (fun cl => addExpense cl post net) st
  = setError (Some "Error adding expense. Please try again.") st.
Proof.
  intros Na Nc Nd Hnan Hle Hreq. unfold run, ClientForm.addExpense, seq, empty.
  apply String.eqb_neq in Na, Nc, Nd. rewrite Na, Nc, Nd. cbn [orb].
  rewrite Hnan, Hle. cbn [orb]. rewrite Hreq. reflexivity.
Qed.

(** X18.  Add, when the form passes the checks and the request is
    answered 2xx with a JSON body: the body sent holds the parsed amount,
    the category, the date and the description trimmed; the form is
    cleared, with today's date, the dialog closed, and the state is then
    the one that Load gives: both lists and the total come from the
    reload. *)
Theorem addExpense_success (st : State) (post : value -> FetchResult)
    (net : Network) (saved : value) :
  amount st <> "" -> category st <> "" -> date st <> "" ->
  PrimFloat.is_nan (parseFloat (amount st)) = false ->
  PrimFloat.leb (parseFloat (amount st)) 0 = false ->
  apiRequest
    (post (wire (VObj [("amount", VNum (parseFloat (amount st)));
                       ("category", VStr (category st));
                       ("date", VStr (date st));
                       ("description", VStr (trim (description st)))])))
  = Some saved ->
  let st' := run (fun cl => addExpense cl post net) st in
  amount st' = "" /\ category st' = "" /\ date st' = today
  /\ description st' = "" /\ showAddModal st' = false
  /\ expenses st' = expenses (fetchExpenses net st)
  /\ filteredExpenses st' = filteredExpenses (fetchExpenses net st)
  /\ totalAmount st' = totalAmount (fetchExpenses net st)
  /\ error st' = error (fetchExpenses net st)
  /\ loading st' = false.
Proof.
  intros Na Nc Nd Hnan Hle Hreq st'. subst st'.
  unfold run, ClientForm.addExpense, seq, empty.
  apply String.eqb_neq in Na, Nc, Nd. rewrite Na, Nc, Nd. cbn [orb].
  rewrite Hnan, Hle. cbn [orb]. unfold newExpense. rewrite Hreq.
  unfold fetchExpenses, seq.
  destruct (apiRequest (net _)) as [[| | | |data|]|]; simpl; repeat split.
Qed.

End AddFacts.

(* ================================================================= *)
(** ** The client in front of the back end *)

Section ServedFacts.
Import Server Client ClientForm Served.

Variable js_Number : string -> float.
Variable js_String : float -> string.
Variable toISOString : Z -> string.
Variable store_sum : list float -> float.

Local Abbreviation doc_json := (Server.doc_json toISOString).
Local Abbreviation serve := (Served.serve toISOString store_sum).
Local Abbreviation post_expenses :=
  (Server.post_expenses js_Number js_String toISOString).

(** A stored record as it arrives at the client. *)
Local Abbreviation arrives := (fun d => wire (doc_json d)).

Lemma arrives_valid (d : ExpenseDoc) :
  isValidExpense (arrives d) = displayable d.
Proof.
  unfold displayable, isValidExpense. cbn [Server.doc_json wire map fst snd].
  cbn [get assoc String.eqb Ascii.eqb Bool.eqb].
  destruct (PrimFloat.is_finite (Server.amount d)) eqn:Ef; [|reflexivity].
  destruct (PrimFloat.is_zero (Server.amount d)) eqn:Ez.
  - rewrite (zero_not_positive _ Ez). reflexivity.
  - rewrite (finite_not_nan _ Ef). cbn [negb andb].
    destruct (PrimFloat.ltb 0 (Server.amount d)); [|reflexivity]. cbn [andb].
    destruct (Server.description d); reflexivity.
Qed.

Lemma arrives_amount (d : ExpenseDoc) :
  displayable d = true -> amount_of (arrives d) = Server.amount d.
Proof.
  unfold displayable. rewrite !andb_true_iff. intros [[[[Hf Hp] _] _] _].
  unfold amount_of. cbn [Server.doc_json wire map fst snd].
  cbn [get assoc String.eqb Ascii.eqb Bool.eqb].
  now rewrite Hf, (positive_not_zero _ Hp).
Qed.

Lemma filter_map_commute {A B : Type} (f : A -> B) (p : B -> bool) (l : list A) :
  filter p (map f l) = map f (filter (fun x => p (f x)) l).
Proof.
  induction l as [|x l IH]; simpl; [reflexivity|].
  destruct (p (f x)); simpl; now rewrite IH.
Qed.

Lemma valid_arrivals (l : list ExpenseDoc) :
  filter isValidExpense (map wire (map doc_json l))
  = map arrives (filter displayable l)
  /\ sum_numbers (map amount_of (map arrives (filter displayable l)))
     = sum_numbers (map Server.amount (filter displayable l)).
Proof.
  split.
  - rewrite map_map, filter_map_commute. f_equal.
    apply filter_ext. intros d. apply arrives_valid.
  - f_equal. rewrite map_map. apply map_ext_in. intros d Hd.
    apply filter_In in Hd. now apply arrives_amount.
Qed.

Lemma served_listing (db : Store) (q : list (string * string)) :
  apiRequest (serve db {| path := "/api/expenses"; params := q |})
  = Some (VArr (map wire (map doc_json
            (sort_date_desc
               (filter (fun d =>
                          selects (q_category (parse_query q))
                                  (Server.category d)
                          && selects (q_date (parse_query q))
                                     (Server.date d))
                       db))))).
Proof.
  unfold Served.serve, respond. cbn [path params String.eqb Ascii.eqb Bool.eqb].
  now rewrite get_expenses_eq.
Qed.

Lemma listing_strongly_sorted (l : list ExpenseDoc) :
  StronglySorted (fun a b => String.leb (Server.date b) (Server.date a) = true)
    (sort_date_desc l).
Proof.
  apply Sorted_StronglySorted.
  - intros a b c Hab Hbc. exact (str_leb_trans _ _ _ Hbc Hab).
  - apply (sort_desc_sorted date_ge date_ge_total).
Qed.

Lemma filter_true {A : Type} (l : list A) : filter (fun _ => true) l = l.
Proof. induction l as [|x l IH]; simpl; congruence. Qed.

Lemma fetch_served (db : Store) (st : State) :
  let kept := map arrives (filter displayable (sort_date_desc db)) in
  fetchExpenses (serve db) st
  = setLoading false
      (calculateTotal kept
         (setFilteredExpenses kept
            (setExpenses kept (setError None (setLoading true st))))).
Proof.
  intros kept. unfold fetchExpenses, seq. rewrite served_listing.
  cbn [parse_query param_named values_of filter map q_category q_date
       selects andb]. rewrite filter_true.
  cbn zeta.
  now rewrite (proj1 (valid_arrivals _)).
Qed.

Lemma filterParams_selects (st : State) (d : ExpenseDoc) :
  selects (q_category (parse_query (filterParams st)))
          (Server.category d)
  && selects (q_date (parse_query (filterParams st))) (Server.date d)
  = (empty (filterCategory st)
     || String.eqb (Server.category d) (filterCategory st))
    && (empty (filterDate st)
        || String.eqb (Server.date d) (filterDate st)).
Proof.
  unfold filterParams, empty.
  destruct (String.eqb (filterCategory st) "") eqn:Ec,
           (String.eqb (filterDate st) "") eqn:Ed;
    cbn [negb app parse_query param_named values_of filter map fst snd
         q_category q_date String.eqb Ascii.eqb Bool.eqb selects orb];
    rewrite ?Ec, ?Ed; reflexivity.
Qed.

(** X19.  Load in front of the back end: both lists become the stored
    records that have a finite amount above 0, a category and a date
    that are not blank and a description that is not null, as they
    arrive, latest date first; the total is the sum of their amounts and
    no error is set.  A stored record that fails one of these (one with a
    negative amount, say) is listed by the back end and not shown. *)
Theorem load_from_server (db : Store) (st : State) :
  exists l,
    Permutation l db
    /\ StronglySorted
         (fun a b => String.leb (Server.date b) (Server.date a) = true) l
    /\ let st' := fetchExpenses (serve db) st in
       expenses st' = map arrives (filter displayable l)
       /\ filteredExpenses st' = map arrives (filter displayable l)
       /\ totalAmount st'
          = sum_numbers (map Server.amount (filter displayable l))
       /\ error st' = None /\ loading st' = false.
Proof.
  exists (sort_date_desc db). split; [apply sort_desc_perm|].
  split; [apply listing_strongly_sorted|].
  cbn zeta. rewrite fetch_served. repeat split.
  change (totalAmount (setLoading false ?x)) with (totalAmount x).
  now rewrite calculateTotal_eq, (proj2 (valid_arrivals _)).
Qed.

(** X20.  Compute range total in front of the back end, with both fields
    filled in: when the sum [t] of the amounts of all the stored records
    whose date lies within the bounds is finite, the total shown is [t]
    (0 for a zero), whether or not Load shows these records; when it is
    not finite, it arrives as null, and the total becomes 0 with the
    error message.  The lists stay as they were. *)
Theorem range_total_from_server (db : Store) (st : State) :
  filterStartDate st <> "" -> filterEndDate st <> "" ->
  let t := sum_numbers
             (map Server.amount
                (filter (fun d => String.leb (filterStartDate st) (Server.date d)
                                  && String.leb (Server.date d) (filterEndDate st))
                        db)) in
  let st' := run (fun cl => getTotalForDateRange cl (serve db)) st in
  expenses st' = expenses st
  /\ filteredExpenses st' = filteredExpenses st
  /\ (PrimFloat.is_finite t = true ->
      totalAmount st' = (if PrimFloat.is_zero t then 0%float else t)
      /\ error st' = None)
  /\ (PrimFloat.is_finite t = false ->
      totalAmount st' = 0%float
      /\ error st' = Some "Error fetching total. Please try again.").
Proof.
  intros Ns Ne t st'.
  assert (E : apiRequest
                (serve db {| path := "/api/expenses/total";
                             params := [("start", filterStartDate st);
                                        ("end", filterEndDate st)] |})
              = Some (VObj [("total", wire (VNum t))])).
  { unfold Served.serve, respond. cbn [path params String.eqb Ascii.eqb Bool.eqb].
    rewrite (get_total_ok _ db (filterStartDate st) (filterEndDate st));
      try assumption; reflexivity. }
  subst st'. unfold run, getTotalForDateRange, empty, seq.
  apply String.eqb_neq in Ns, Ne. rewrite Ns, Ne. cbn [orb]. rewrite E.
  cbn [get assoc String.eqb Ascii.eqb Bool.eqb wire].
  destruct (PrimFloat.is_finite t) eqn:Ef.
  - destruct (PrimFloat.is_zero t) eqn:Ez.
    + change (PrimFloat.is_nan 0) with false. cbn.
      repeat split; intros; try discriminate; reflexivity.
    + rewrite (finite_not_nan _ Ef). cbn.
      repeat split; intros; try discriminate; reflexivity.
  - cbn. repeat split; intros; try discriminate; reflexivity.
Qed.

(** X21.  Add in front of the back end: a form that passes the checks
    of the client, with an amount that parses to a finite number, is
    never refused: the back end answers 201 and stores one record with
    that amount, the category and the date of the form and the trimmed
    description.  With an amount that parses to Infinity the body
    carries null, the back end answers 400 and stores nothing, and the
    client only shows its error message. *)
Theorem add_to_server (parseFloat : string -> float) (today : string)
    (env : Env) (db : Store) (st : State) (net : Network) :
  Client.amount st <> "" -> Client.category st <> "" -> Client.date st <> "" ->
  let a := parseFloat (Client.amount st) in
  PrimFloat.is_nan a = false -> PrimFloat.leb a 0 = false ->
  let sent := wire (newExpense a st) in
  let post := fun b => respond (snd (post_expenses env b db)) in
  (PrimFloat.is_finite a = true ->
   post_expenses env sent db
   = (db ++ [ {| _id := oid env; Server.amount := a;
                 Server.category := Client.category st;
                 Server.date := Client.date st;
                 Server.description := Some (trim (Client.description st));
                 createdAt := now env |} ],
      {| status := 201;
         body := doc_json
                   {| _id := oid env; Server.amount := a;
                      Server.category := Client.category st;
                      Server.date := Client.date st;
                      Server.description := Some (trim (Client.description st));
                      createdAt := now env |} |}))
  /\ (PrimFloat.is_finite a = false ->
      fst (post_expenses env sent db) = db
      /\ status (snd (post_expenses env sent db)) = 400
      /\ run (fun cl => addExpense parseFloat today cl post net) st
         = setError (Some "Error adding expense. Please try again.") st).
Proof.
  intros Na Nc Nd a Hnan Hle sent post.
  pose proof (not_le_zero_positive a Hnan Hle) as Hpos.
  pose proof (positive_not_zero a Hpos) as Hz.
  split; intros Hf.
  - subst sent. unfold newExpense. cbn [wire map fst snd]. rewrite Hf, Hz.
    unfold Server.post_expenses.
    cbn [get assoc String.eqb Ascii.eqb Bool.eqb].
    rewrite (positive_truthy a Hpos).
    rewrite (proj2 (truthy_str_value _) Nc), (proj2 (truthy_str_value _) Nd).
    cbn [negb orb]. unfold Server.save.
    cbn [Server.castNumber Server.castString requiredString requiredNumber].
    rewrite Hnan. apply String.eqb_neq in Nc, Nd. rewrite Nc, Nd.
    reflexivity.
  - assert (E : post_expenses env sent db
                = (db, {| status := 400;
                          body := message
                                    "Please provide amount, category, and date" |})).
    { apply post_falsy. left. subst sent. unfold newExpense.
      cbn [wire map fst snd]. rewrite Hf. reflexivity. }
    rewrite E. repeat split.
    assert (Hreq : apiRequest (post sent) = None)
      by (subst post; cbn beta; rewrite E; reflexivity).
    unfold run, ClientForm.addExpense, seq, empty.
    apply String.eqb_neq in Na, Nc, Nd. rewrite Na, Nc, Nd. cbn [orb].
    fold a. rewrite Hnan, Hle. cbn [orb]. fold sent. now rewrite Hreq.
Qed.

(** X22.  Apply filter in front of the back end: the filtered list
    becomes the stored records that match the filter fields that are
    not empty (category and date, by equality) and that Load would show,
    as they arrive, latest date first; the total is the sum of their
    amounts, and the full list stays as it was. *)
Theorem filter_from_server (db : Store) (st : State) :
  exists l,
    Permutation l
      (filter (fun d =>
                 (empty (filterCategory st)
                  || String.eqb (Server.category d) (filterCategory st))
                 && (empty (filterDate st)
                     || String.eqb (Server.date d) (filterDate st))) db)
    /\ StronglySorted
         (fun a b => String.leb (Server.date b) (Server.date a) = true) l
    /\ let st' := run (fun cl => applyFilters cl (serve db)) st in
       filteredExpenses st' = map arrives (filter displayable l)
       /\ totalAmount st'
          = sum_numbers (map Server.amount (filter displayable l))
       /\ expenses st' = expenses st
       /\ error st' = None /\ showFilterModal st' = false.
Proof.
  eexists. split; [apply sort_desc_perm|].
  split; [apply listing_strongly_sorted|].
  cbn zeta. unfold run, applyFilters, seq. rewrite served_listing.
  rewrite (filter_ext _ _ (filterParams_selects st)). cbn zeta.
  rewrite (proj1 (valid_arrivals _)). repeat split.
  change (totalAmount (setLoading false (setShowFilterModal false ?x)))
    with (totalAmount x).
  now rewrite calculateTotal_eq, (proj2 (valid_arrivals _)).
Qed.

(** X23.  Add in front of the back end, with a form that passes the
    checks of the client and an amount that parses to a finite number:
    after the reload the form is cleared and the new record is in the
    list exactly when its category and its date are not blank; a
    category of spaces is stored and not shown. *)
Theorem add_then_shown (parseFloat : string -> float) (today : string)
    (env : Env) (db : Store) (st : State) :
  Client.amount st <> "" -> Client.category st <> "" -> Client.date st <> "" ->
  let a := parseFloat (Client.amount st) in
  PrimFloat.is_nan a = false -> PrimFloat.leb a 0 = false ->
  PrimFloat.is_finite a = true ->
  let sent := wire (newExpense a st) in
  let db' := fst (post_expenses env sent db) in
  let post := fun b => respond (snd (post_expenses env b db)) in
  let st' := run (fun cl => addExpense parseFloat today cl post (serve db')) st in
  exists doc,
    db' = db ++ [doc]
    /\ Server.amount doc = a
    /\ Server.category doc = Client.category st
    /\ Server.date doc = Client.date st
    /\ (In (arrives doc) (expenses st') <->
        trim (Client.category st) <> "" /\ trim (Client.date st) <> "")
    /\ filteredExpenses st' = expenses st'
    /\ Client.amount st' = "" /\ Client.category st' = ""
    /\ Client.date st' = today /\ Client.description st' = ""
    /\ showAddModal st' = false.
Proof.
  intros Na Nc Nd a Hnan Hle Hf sent db' post st'.
  pose proof (not_le_zero_positive a Hnan Hle) as Hpos.
  pose proof (positive_not_zero a Hpos) as Hz.
  set (doc := {| _id := oid env; Server.amount := a;
                 Server.category := Client.category st;
                 Server.date := Client.date st;
                 Server.description := Some (trim (Client.description st));
                 createdAt := now env |}).
  assert (E : post_expenses env sent db
              = (db ++ [doc], {| status := 201; body := doc_json doc |})).
  { subst sent. unfold newExpense. cbn [wire map fst snd]. rewrite Hf, Hz.
    unfold Server.post_expenses.
    cbn [get assoc String.eqb Ascii.eqb Bool.eqb].
    rewrite (positive_truthy a Hpos).
    rewrite (proj2 (truthy_str_value _) Nc), (proj2 (truthy_str_value _) Nd).
    cbn [negb orb]. unfold Server.save.
    cbn [Server.castNumber Server.castString requiredString requiredNumber].
    rewrite Hnan. apply String.eqb_neq in Nc, Nd. now rewrite Nc, Nd. }
  assert (Edb : db' = db ++ [doc]) by (subst db'; now rewrite E).
  assert (Hreq : apiRequest (post sent) = Some (wire (doc_json doc)))
    by (subst post; cbn beta; rewrite E; reflexivity).
  assert (Est : st' = fetchExpenses (serve db')
                        (setShowAddModal false
                           (setDescription ""
                              (setDate today
                                 (setCategory ""
                                    (setAmount "" (setError None st))))))).
  { subst st'. unfold run, ClientForm.addExpense, seq, empty.
    apply String.eqb_neq in Na, Nc, Nd. rewrite Na, Nc, Nd. cbn [orb].
    fold a. rewrite Hnan, Hle. cbn [orb]. fold sent. now rewrite Hreq. }
  exists doc. split; [exact Edb|]. split; [reflexivity|].
  split; [reflexivity|]. split; [reflexivity|].
  rewrite Est, fetch_served. split; [|repeat split].
  cbn [expenses setLoading calculateTotal setTotalAmount setFilteredExpenses
       setExpenses].
  assert (D : displayable doc = true <->
              trim (Client.category st) <> "" /\ trim (Client.date st) <> "").
  { unfold displayable. cbn [Server.amount Server.category Server.date
                              Server.description doc].
    rewrite Hf, Hpos. cbn [andb]. rewrite andb_true_r, andb_true_iff.
    now rewrite !negb_true_iff, !String.eqb_neq. }
  rewrite <- D. split.
  - intros H. apply in_map_iff in H. destruct H as (d & Hd & Hin).
    apply filter_In in Hin. rewrite <- arrives_valid, <- Hd, arrives_valid.
    tauto.
  - intros H. apply in_map_iff. exists doc. split; [reflexivity|].
    apply filter_In. split; [|exact H].
    unfold sort_date_desc.
    apply (Permutation_in _ (Permutation_sym (sort_desc_perm date_ge db'))).
    rewrite Edb. apply in_app_iff. right. now left.
Qed.

End ServedFacts.

(* ================================================================= *)
(** ** Closed examples, continued *)

Section MoreExamples.
Import Sample Sample2.

Local Abbreviation post_expenses :=
  (Server.post_expenses js_Number js_String toISOString).
Local Abbreviation doc_json := (Server.doc_json toISOString).
Local Abbreviation get_expenses := (Server.get_expenses toISOString).
Local Abbreviation post_all := (History.post_all js_Number js_String toISOString).
Local Abbreviation serve := (Served.serve toISOString store_sum).
Local Abbreviation addExpense := (ClientForm.addExpense parseFloat today).

Lemma post_all_invariant_witness :
  Forall History.well_formed
    (post_all [(env1, food_body 45.99%float); (env2, food_body 0%float);
               (env2, transportation_body)] []).
Proof.
  destruct (post_all_invariant js_Number js_String toISOString
              [(env1, food_body 45.99%float); (env2, food_body 0%float);
               (env2, transportation_body)] []) as (added & _ & _ & W).
  apply W. constructor.
Defined.

Lemma post_then_listed_witness :
  exists items,
    Server.body (get_expenses (by_category (Server.PStr "Food")) [transportation; food])
    = VArr items
    /\ In (doc_json food) items.
Proof.
  destruct (post_then_listed js_Number js_String toISOString
              env1 (food_body 45.99%float) [transportation]
              [transportation; food]
              {| Server.status := 201; Server.body := doc_json food |}
              (by_category (Server.PStr "Food")) eq_refl eq_refl)
    as (doc & items & H1 & H2 & H3 & _).
  exists items. split; [exact H2|].
  cbn [Server.body] in H1. rewrite H1. apply H3.
  - intros c Hc _. inversion Hc. inversion H1. congruence.
  - intros cs Hcs. discriminate.
  - intros x Hx. discriminate.
  - intros xs Hxs. discriminate.
Defined.

Lemma post_then_total_witness :
  Server.get_total (bounds (Some (Server.PStr "2025-01-01")) (Some (Server.PStr "2025-01-31")))
    [transportation; food]
  = {| Server.status := 200;
       Server.body := VObj [("total", VNum 58.49%float)] |}.
Proof.
  destruct (post_then_total js_Number js_String toISOString
              env1 (food_body 45.99%float) [transportation]
              [transportation; food]
              {| Server.status := 201; Server.body := doc_json food |}
              (bounds (Some (Server.PStr "2025-01-01")) (Some (Server.PStr "2025-01-31")))
              "2025-01-01" "2025-01-31" eq_refl eq_refl eq_refl
              ltac:(discriminate) eq_refl ltac:(discriminate))
    as (doc & t & H1 & H2 & H3).
  cbn [Server.body] in H1. inversion H1 as [[Ha Hc Hd]].
  inversion H2 as [Ht]. rewrite H3, <- Hd, <- Ha, <- Ht. reflexivity.
Defined.

Lemma get_total_inverted_bounds_witness :
  Server.get_total (bounds (Some (Server.PStr "2025-01-15")) (Some (Server.PStr "2025-01-14")))
    [food; transportation]
  = {| Server.status := 200; Server.body := VObj [("total", VNum 0%float)] |}.
Proof.
  apply (get_total_inverted_bounds
           (bounds (Some (Server.PStr "2025-01-15")) (Some (Server.PStr "2025-01-14")))
           [food; transportation] "2025-01-15" "2025-01-14");
    try reflexivity; discriminate.
Defined.

Lemma get_total_single_date_witness :
  Server.get_total (bounds (Some (Server.PStr "2025-01-14")) (Some (Server.PStr "2025-01-14")))
    [food; transportation]
  = {| Server.status := 200; Server.body := VObj [("total", VNum 12.5%float)] |}.
Proof.
  apply (get_total_single_date
           (bounds (Some (Server.PStr "2025-01-14")) (Some (Server.PStr "2025-01-14")))
           [food; transportation] "2025-01-14");
    try reflexivity; discriminate.
Defined.

Lemma seedInitialData_once_witness :
  Startup.seedInitialData js_Number js_String fresh [food] = [food].
Proof.
  apply (proj1 (seedInitialData_once js_Number js_String fresh fresh [food])).
  discriminate.
Defined.

Lemma applyFilters_success_witness :
  Client.filteredExpenses
    (Client.run
       (fun cl => Client.applyFilters cl
          (answers 200 (VArr [abc_amount; food_body 45.99%float]))) loaded)
  = [food_body 45.99%float].
Proof.
  rewrite (applyFilters_success
             (answers 200 (VArr [abc_amount; food_body 45.99%float])) loaded
             200 [abc_amount; food_body 45.99%float] eq_refl eq_refl).
  reflexivity.
Defined.

Lemma fetchExpenses_failure_witness :
  Client.expenses (Client.fetchExpenses unreachable loaded) = []
  /\ Client.expenses
       (Client.fetchExpenses (answers 200 (VObj [("total", VNum 1%float)]))
          loaded) = [].
Proof.
  split.
  - rewrite (fetchExpenses_failure unreachable loaded); [reflexivity|].
    intros data. discriminate.
  - rewrite (fetchExpenses_failure
               (answers 200 (VObj [("total", VNum 1%float)])) loaded);
      [reflexivity|].
    intros data. discriminate.
Defined.

Lemma getTotalForDateRange_failure_witness :
  Client.totalAmount
    (Client.run (fun cl => Client.getTotalForDateRange cl
                   (answers 200 (VObj [("total", VStr "58.49")]))) loaded)
  = 0%float.
Proof.
  rewrite (getTotalForDateRange_failure
             (answers 200 (VObj [("total", VStr "58.49")])) loaded);
    try reflexivity; try discriminate.
  intros data total H. inversion H. discriminate.
Defined.

Lemma valid_lists_kept_witness :
  ClientForm.valid_lists
    (Client.run (fun cl => Client.applyFilters cl unreachable) loaded).
Proof.
  apply (proj2 (valid_lists_kept unreachable loaded)).
  split; repeat constructor.
Defined.

Lemma applyFilters_no_filter_witness :
  Client.filteredExpenses
    (Client.run
       (fun cl => Client.applyFilters cl
          (answers 200 (VArr [food_body 45.99%float]))) initial)
  = [food_body 45.99%float].
Proof.
  destruct (applyFilters_no_filter
              (answers 200 (VArr [food_body 45.99%float])) initial
              eq_refl eq_refl) as (_ & H & _).
  rewrite H. reflexivity.
Defined.

Lemma addExpense_form_errors_witness :
  Client.run (fun cl => addExpense cl (fun _ => Client.NetworkError) unreachable)
    (form "")
  = Client.setError (Some "Please fill in all required fields") (form "")
  /\ Client.run
       (fun cl => addExpense cl (fun _ => Client.NetworkError) unreachable)
       (form "abc")
     = Client.setError (Some "Please enter a valid amount") (form "abc").
Proof.
  split.
  - apply (proj1 (addExpense_form_errors parseFloat today (form "")
                    (fun _ => Client.NetworkError) unreachable)).
    left; reflexivity.
  - apply (proj2 (addExpense_form_errors parseFloat today (form "abc")
                    (fun _ => Client.NetworkError) unreachable));
      try discriminate.
    left; reflexivity.
Defined.

Lemma addExpense_request_failure_witness :
  Client.run (fun cl => addExpense cl (fun _ => Client.NetworkError) unreachable)
    (form "12.5")
  = Client.setError (Some "Error adding expense. Please try again.")
      (form "12.5").
Proof.
  apply (addExpense_request_failure parseFloat today (form "12.5")
           (fun _ => Client.NetworkError) unreachable);
    try discriminate; reflexivity.
Defined.

Lemma addExpense_success_witness :
  let st' :=
    Client.run
      (fun cl => addExpense cl (fun b => Client.HttpResponse 201 (Some b))
                   (answers 200 (VArr [food_body 45.99%float;
                                       transportation_body])))
      (form "12.5") in
  Client.amount st' = "" /\ Client.date st' = "2025-01-15"
  /\ Client.showAddModal st' = false
  /\ Client.expenses st' = [food_body 45.99%float; transportation_body].
Proof.
  intros st'.
  destruct (addExpense_success parseFloat today (form "12.5")
              (fun b => Client.HttpResponse 201 (Some b))
              (answers 200 (VArr [food_body 45.99%float; transportation_body]))
              (VObj [("amount", VNum 12.5%float);
                     ("category", VStr "Transportation");
                     ("date", VStr "2025-01-14");
                     ("description", VStr "Uber ride")])
              ltac:(discriminate) ltac:(discriminate) ltac:(discriminate)
              eq_refl eq_refl eq_refl)
    as (H1 & _ & H3 & _ & H5 & H6 & _).
  split; [exact H1 | split; [exact H3 | split; [exact H5 |]]].
  etransitivity; [exact H6 | reflexivity].
Defined.

Lemma range_total_from_server_witness :
  Client.totalAmount
    (Client.run (fun cl => Client.getTotalForDateRange cl
                   (serve [food; refund; transportation])) loaded)
  = 38.49%float.
Proof.
  destruct (range_total_from_server toISOString store_sum
              [food; refund; transportation] loaded
              ltac:(discriminate) ltac:(discriminate))
    as (_ & _ & H & _).
  destruct (H eq_refl) as [Ht _]. rewrite Ht. reflexivity.
Defined.

Lemma add_to_server_witness :
  post_expenses env2
    (VObj [("amount", VNum 12.5%float); ("category", VStr "Transportation");
           ("date", VStr "2025-01-14"); ("description", VStr "Uber ride")])
    [food]
  = ([food;
      {| Server._id := Server.oid env2; Server.amount := 12.5%float;
         Server.category := "Transportation"; Server.date := "2025-01-14";
         Server.description := Some "Uber ride";
         Server.createdAt := Server.now env2 |}],
     {| Server.status := 201;
        Server.body :=
          doc_json
            {| Server._id := Server.oid env2; Server.amount := 12.5%float;
               Server.category := "Transportation";
               Server.date := "2025-01-14";
               Server.description := Some "Uber ride";
               Server.createdAt := Server.now env2 |} |}).
Proof.
  apply (proj1 (add_to_server js_Number js_String toISOString
                  parseFloat today env2 [food] (form "12.5") unreachable
                  ltac:(discriminate) ltac:(discriminate) ltac:(discriminate)
                  eq_refl eq_refl)).
  reflexivity.
Defined.

Lemma add_then_shown_witness :
  let st' :=
    Client.run
      (fun cl =>
         addExpense cl
           (fun b => Served.respond (snd (post_expenses env2 b [food])))
           (serve (fst (post_expenses env2
                          (wire (ClientForm.newExpense 12.5%float (form "12.5")))
                          [food]))))
      (form "12.5") in
  List.length (Client.expenses st') = 2 /\ Client.amount st' = "".
Proof.
  intros st'.
  destruct (add_then_shown js_Number js_String toISOString store_sum
              parseFloat today env2 [food] (form "12.5")
              ltac:(discriminate) ltac:(discriminate) ltac:(discriminate)
              eq_refl eq_refl eq_refl)
    as (doc & _ & _ & _ & _ & _ & _ & H & _).
  split; [reflexivity | exact H].
Defined.

End MoreExamples.
